(** * Persona lifecycle and state tracking of specx-cli

    A shallow embedding of [src/specx_cli/persona_manager.py] and of the
    marker-file writer of [src/specx_cli/agent_persona_context.py],
    together with the properties the specification states about them.

    Conventions of the embedding:
    - Python's [float] and [datetime] are kept behind the interface
      [PyRuntime]; the program only adds, multiplies and divides floats
      and only prints, parses and subtracts datetimes.
    - a file of the project directory is [Absent], [Unparsable] or holds
      the JSON [Document] that [json.dump] wrote; [json.load] gives that
      document back. Whether the bytes of an unparsable file decode as
      text depends on the platform's encoding, kept behind [PyLocale].
    - exceptions are values of [res]; [try ... except Exception] is
      [try_except]. *)

From stdpp Require Import gmap strings list fin_maps.
From Stdlib Require Import ZArith QArith Qreduction DecimalString DecimalZ.
From Stdlib Require Import Qround Sorted OrderedTypeEx.

#[local] Set Warnings "-register-all".
#[local] Open Scope string_scope.
#[local] Open Scope Z_scope.

(** ** The part of the Python runtime the program relies on *)

Class PyRuntime := {
  float : Type;
  (** [float(n)] for an integer literal, such as [0.0] and [100.0] *)
  float_of_int : Z → float;
  (** [x + y], [x * y] on floats *)
  fadd : float → float → float;
  fmul : float → float → float;
  (** [a / b] on integers: true division, a float *)
  truediv : Z → Z → float;
  (** [x <= y] and [x == 0.0] *)
  fle : float → float → Prop;
  float_is_zero : float → bool;
  datetime : Type;
  isoformat : datetime → string;
  fromisoformat : string → option datetime;
  (** [(e - s).total_seconds()] *)
  total_seconds : datetime → datetime → float;
  (** [datetime.fromisoformat] reads what [isoformat] printed *)
  fromisoformat_isoformat : ∀ t, fromisoformat (isoformat t) = Some t;
  (** a quotient of [0 <= a <= b] lies in the unit interval *)
  truediv_unit : ∀ a b : Z, 0 ≤ a ≤ b → 0 < b →
    fle (float_of_int 0) (truediv a b) ∧ fle (truediv a b) (float_of_int 1);
  (** scaling the unit interval by [100] *)
  fmul_percent : ∀ x, fle (float_of_int 0) x → fle x (float_of_int 1) →
    fle (float_of_int 0) (fmul x (float_of_int 100)) ∧
    fle (fmul x (float_of_int 100)) (float_of_int 100)
}.

(** The encoding that [open(path, 'r')] reads text in is the platform's:
    [decodes text] tells whether the bytes of a file decode in it. *)
Class PyLocale := {
  decodes : string → bool
}.

(** ** Exceptions *)

Inductive exn :=
  | FileNotFoundError | JSONDecodeError | AttributeError | TypeError
  | ValueError | KeyError | UnicodeDecodeError.

(** The outcome of a call. [IllTyped] marks a run in which Python builds a
    dataclass object holding a value that its field annotation excludes
    (dataclasses do not check annotations); the records below are typed as
    annotated, so the embedding stops there. It is not an exception, and
    no handler catches it. *)
Inductive res (A : Type) :=
  | Ok (a : A)
  | Raise (e : exn)
  | IllTyped.
#[global] Arguments Ok {A} a.
#[global] Arguments Raise {A} e.
#[global] Arguments IllTyped {A}.

#[global] Instance res_ret : MRet res := λ A a, Ok a.
#[global] Instance res_bind : MBind res := λ A B f r,
  match r with
  | Ok a => f a
  | Raise e => Raise e
  | IllTyped => IllTyped
  end.
#[global] Instance res_fmap : FMap res := λ A B f r,
  match r with
  | Ok a => Ok (f a)
  | Raise e => Raise e
  | IllTyped => IllTyped
  end.

(** [try: body except Exception: handler] *)
Definition try_except {A} (body : res A) (handler : exn → res A) : res A :=
  match body with
  | Raise e => handler e
  | _ => body
  end.

(** A value that must conform to a field annotation. *)
Definition typed {A} (o : option A) : res A :=
  match o with
  | Some a => Ok a
  | None => IllTyped
  end.

Definition raises {A} (r : res A) : Prop :=
  match r with Raise _ => True | _ => False end.
Definition is_ok {A} (r : res A) : Prop :=
  match r with Ok _ => True | _ => False end.
Definition res_value {A} (r : res A) : option A :=
  match r with Ok a => Some a | _ => None end.

#[global] Instance raises_dec {A} (r : res A) : Decision (raises r).
Proof. destruct r; simpl; apply _. Defined.
#[global] Instance is_ok_dec {A} (r : res A) : Decision (is_ok r).
Proof. destruct r; simpl; apply _. Defined.

(** ** Values read from and written to JSON files *)

Section Runtime.
Context `{RT : PyRuntime}.

Inductive json :=
  | JNull
  | JBool (b : bool)
  | JInt (n : Z)
  | JFloat (x : float)
  | JStr (s : string)
  | JList (l : list json)
  | JDict (m : gmap string json).

(** Truth value of a loaded value, as [if v:] tests it. *)
Definition truthy (v : json) : bool :=
  match v with
  | JNull => false
  | JBool b => b
  | JInt n => negb (n =? 0)
  | JFloat x => negb (float_is_zero x)
  | JStr s => negb (String.eqb s "")
  | JList l => negb (bool_decide (l = []))
  | JDict m => negb (bool_decide (size m = 0%nat))
  end.

(** ** Files of the project directory *)

Inductive file :=
  | Absent
  | Unparsable (text : string)
  | Document (v : json).

(** [with open(path, 'r') as f: json.load(f)] *)
Definition json_load (f : file) : res json :=
  match f with
  | Absent => Raise FileNotFoundError
  | Unparsable _ => Raise JSONDecodeError
  | Document v => Ok v
  end.

(** [with open(path, 'w') as f: json.dump(v, f, indent=2)] *)
Definition json_dump (v : json) : file := Document v.

(** [path.exists()] *)
Definition exists_ (f : file) : bool :=
  match f with Absent => false | _ => true end.

(** ** Typed views of loaded values *)

Definition as_str (v : json) : option string :=
  match v with JStr s => Some s | _ => None end.
Definition as_opt_str (v : json) : option (option string) :=
  match v with JNull => Some None | JStr s => Some (Some s) | _ => None end.
Definition as_int (v : json) : option Z :=
  match v with JInt n => Some n | _ => None end.
Definition as_float (v : json) : option float :=
  match v with JFloat x => Some x | _ => None end.
Definition as_str_list (v : json) : option (list string) :=
  match v with JList l => mapM as_str l | _ => None end.
Definition as_dict (v : json) : option (gmap string json) :=
  match v with JDict m => Some m | _ => None end.

(** All values of a dict viewed through [f], or nothing if one fails. *)
Definition map_view {A B} (f : A → option B) (m : gmap string A)
    : option (gmap string B) :=
  if bool_decide (map_Forall (λ _ x, is_Some (f x)) m)
  then Some (omap f m) else None.

Definition as_int_dict (v : json) : option (gmap string Z) :=
  match v with JDict m => map_view as_int m | _ => None end.

Definition of_opt_str (o : option string) : json :=
  match o with Some s => JStr s | None => JNull end.

(** A keyword argument with a default. *)
Definition kwarg {A} (kw : gmap string json) (k : string)
    (view : json → option A) (dflt : A) : option A :=
  match kw !! k with
  | Some v => view v
  | None => Some dflt
  end.

(** [**v]: the value unpacked as keyword arguments must be a mapping. *)
Definition kwargs_of (v : json) : res (gmap string json) :=
  match v with
  | JDict m => Ok m
  | _ => Raise TypeError
  end.

(** [v.get(k)] *)
Definition dict_get (v : json) (k : string) : res json :=
  match v with
  | JDict m => Ok (default JNull (m !! k))
  | _ => Raise AttributeError
  end.

(** ** The dataclasses *)

Record PersonaContext := {
  persona_id : string;
  activated_at : string;
  deactivated_at : option string;
  phase : option string;
  artifacts : list string;
  metrics : gmap string json;
  notes : list string
}.

Record PersonaPerformance := {
  perf_persona_id : string;
  total_sessions : Z;
  total_duration_seconds : float;
  phases_completed : gmap string Z;
  artifacts_created : Z;
  error_count : Z;
  success_rate : float;
  last_active : option string
}.

(** [dataclasses.asdict] *)
Definition asdict_context (c : PersonaContext) : gmap string json :=
  list_to_map [
    ("persona_id", JStr (persona_id c));
    ("activated_at", JStr (activated_at c));
    ("deactivated_at", of_opt_str (deactivated_at c));
    ("phase", of_opt_str (phase c));
    ("artifacts", JList (JStr <$> artifacts c));
    ("metrics", JDict (metrics c));
    ("notes", JList (JStr <$> notes c)) ].

Definition asdict_performance (p : PersonaPerformance) : gmap string json :=
  list_to_map [
    ("persona_id", JStr (perf_persona_id p));
    ("total_sessions", JInt (total_sessions p));
    ("total_duration_seconds", JFloat (total_duration_seconds p));
    ("phases_completed", JDict (JInt <$> phases_completed p));
    ("artifacts_created", JInt (artifacts_created p));
    ("error_count", JInt (error_count p));
    ("success_rate", JFloat (success_rate p));
    ("last_active", of_opt_str (last_active p)) ].

Definition context_fields : gset string :=
  list_to_set ["persona_id"; "activated_at"; "deactivated_at"; "phase";
               "artifacts"; "metrics"; "notes"].

Definition performance_fields : gset string :=
  list_to_set ["persona_id"; "total_sessions"; "total_duration_seconds";
               "phases_completed"; "artifacts_created"; "error_count";
               "success_rate"; "last_active"].

(** [PersonaContext] applied to the unpacked keywords [kw]: an unknown
    keyword or a missing [persona_id] or [activated_at] is a [TypeError];
    the other fields have defaults. *)
Definition PersonaContext_init (kw : gmap string json) : res PersonaContext :=
  if bool_decide (dom kw ⊆ context_fields) then
    match kw !! "persona_id", kw !! "activated_at" with
    | Some pid, Some act =>
        typed (
          pid ← as_str pid;
          act ← as_str act;
          deact ← kwarg kw "deactivated_at" as_opt_str None;
          ph ← kwarg kw "phase" as_opt_str None;
          arts ← kwarg kw "artifacts" as_str_list [];
          mets ← kwarg kw "metrics" as_dict ∅;
          nts ← kwarg kw "notes" as_str_list [];
          Some {| persona_id := pid; activated_at := act;
                  deactivated_at := deact; phase := ph; artifacts := arts;
                  metrics := mets; notes := nts |})
    | _, _ => Raise TypeError
    end
  else Raise TypeError.

(** [PersonaPerformance(persona_id=pid)] *)
Definition PersonaPerformance_new (pid : string) : PersonaPerformance :=
  {| perf_persona_id := pid; total_sessions := 0;
     total_duration_seconds := float_of_int 0; phases_completed := ∅;
     artifacts_created := 0; error_count := 0;
     success_rate := float_of_int 100; last_active := None |}.

(** [PersonaPerformance] applied to the unpacked keywords [kw]: only
    [persona_id] is required. *)
Definition PersonaPerformance_init (kw : gmap string json)
    : res PersonaPerformance :=
  if bool_decide (dom kw ⊆ performance_fields) then
    match kw !! "persona_id" with
    | Some pid =>
        typed (
          pid ← as_str pid;
          let d := PersonaPerformance_new pid in
          ts ← kwarg kw "total_sessions" as_int (total_sessions d);
          dur ← kwarg kw "total_duration_seconds" as_float
                  (total_duration_seconds d);
          phs ← kwarg kw "phases_completed" as_int_dict (phases_completed d);
          ac ← kwarg kw "artifacts_created" as_int (artifacts_created d);
          ec ← kwarg kw "error_count" as_int (error_count d);
          sr ← kwarg kw "success_rate" as_float (success_rate d);
          la ← kwarg kw "last_active" as_opt_str (last_active d);
          Some {| perf_persona_id := pid; total_sessions := ts;
                  total_duration_seconds := dur; phases_completed := phs;
                  artifacts_created := ac; error_count := ec;
                  success_rate := sr; last_active := la |})
    | None => Raise TypeError
    end
  else Raise TypeError.

(** ** Strings *)

(** [str.lower] on the ASCII letters. The result is only ever searched for
    the ASCII word [error], and no other character lowers to one of its
    letters. *)
Definition lower_char (c : Ascii.ascii) : Ascii.ascii :=
  let n := Ascii.N_of_ascii c in
  if ((65 <=? n) && (n <=? 90))%N then Ascii.ascii_of_N (n + 32) else c.

Fixpoint lower (s : string) : string :=
  match s with
  | EmptyString => EmptyString
  | String c s' => String (lower_char c) (lower s')
  end.

(** [needle in hay] *)
Fixpoint contains (needle hay : string) : bool :=
  String.prefix needle hay ||
  match hay with
  | EmptyString => false
  | String _ hay' => contains needle hay'
  end.

(** [if s:] on a string *)
Definition nonempty (s : string) : bool := negb (String.eqb s "").

(** ** The manager, the project directory it works on, and the clock *)

(** The text of a [CURRENT_PERSONA.md] marker is determined by the three
    values interpolated into it. *)
Record marker := {
  marker_assistant : string;
  marker_persona : string;
  marker_phase : option string
}.

Record PersonaManager := {
  current_context : option PersonaContext;
  state_file : file;
  history_file : file;
  performance_file : file;
  (** marker files of the AI assistants, by path *)
  agent_files : gmap string marker;
  (** successive readings of [datetime.now()] *)
  clock : nat → datetime;
  ticks : nat
}.

Definition set_current_context (o : option PersonaContext)
    (w : PersonaManager) : PersonaManager :=
  {| current_context := o; state_file := state_file w;
     history_file := history_file w; performance_file := performance_file w;
     agent_files := agent_files w; clock := clock w; ticks := ticks w |}.

Definition set_state_file (f : file) (w : PersonaManager) : PersonaManager :=
  {| current_context := current_context w; state_file := f;
     history_file := history_file w; performance_file := performance_file w;
     agent_files := agent_files w; clock := clock w; ticks := ticks w |}.

Definition set_history_file (f : file) (w : PersonaManager) : PersonaManager :=
  {| current_context := current_context w; state_file := state_file w;
     history_file := f; performance_file := performance_file w;
     agent_files := agent_files w; clock := clock w; ticks := ticks w |}.

Definition set_performance_file (f : file) (w : PersonaManager)
    : PersonaManager :=
  {| current_context := current_context w; state_file := state_file w;
     history_file := history_file w; performance_file := f;
     agent_files := agent_files w; clock := clock w; ticks := ticks w |}.

Definition set_agent_files (a : gmap string marker) (w : PersonaManager)
    : PersonaManager :=
  {| current_context := current_context w; state_file := state_file w;
     history_file := history_file w; performance_file := performance_file w;
     agent_files := a; clock := clock w; ticks := ticks w |}.

(** [datetime.now()] *)
Definition datetime_now (w : PersonaManager) : datetime * PersonaManager :=
  (clock w (ticks w),
   {| current_context := current_context w; state_file := state_file w;
      history_file := history_file w; performance_file := performance_file w;
      agent_files := agent_files w; clock := clock w; ticks := S (ticks w) |}).

(** *** The state store *)

Definition _save_state (w : PersonaManager) : PersonaManager :=
  let cur := match current_context w with
             | Some c => JDict (asdict_context c)
             | None => JNull
             end in
  let '(now, w) := datetime_now w in
  let state := list_to_map [("current_persona", cur);
                            ("updated_at", JStr (isoformat now))] in
  set_state_file (json_dump (JDict state)) w.

Definition _load_state (w : PersonaManager) : res PersonaManager :=
  try_except
    (data ← json_load (state_file w);
     cur ← dict_get data "current_persona";
     if truthy cur then
       kw ← kwargs_of cur;
       c ← PersonaContext_init kw;
       Ok (set_current_context (Some c) w)
     else Ok w)
    (λ _, Ok (set_current_context None w)).

Definition _load_history (w : PersonaManager) : res json :=
  try_except (json_load (history_file w)) (λ _, Ok (JList [])).

Definition _save_history (history : json) (w : PersonaManager)
    : PersonaManager :=
  set_history_file (json_dump history) w.

(** [data.items()] *)
Definition dict_items (v : json) : res (gmap string json) :=
  match v with
  | JDict m => Ok m
  | _ => Raise AttributeError
  end.

(** [{k: f(v) for k, v in m.items()}], for an [f] whose only exception is
    [TypeError]. *)
Definition dict_comprehension {B} (f : json → res B) (m : gmap string json)
    : res (gmap string B) :=
  if bool_decide (map_Forall (λ _ v, ¬ raises (f v)) m)
  then typed (map_view (λ v, res_value (f v)) m)
  else Raise TypeError.

Definition _load_performance (w : PersonaManager)
    : res (gmap string PersonaPerformance) :=
  try_except
    (data ← json_load (performance_file w);
     items ← dict_items data;
     dict_comprehension (λ pdata, kwargs_of pdata ≫= PersonaPerformance_init)
       items)
    (λ _, Ok ∅).

Definition _save_performance (performance : gmap string PersonaPerformance)
    (w : PersonaManager) : PersonaManager :=
  let data := (λ perf, JDict (asdict_performance perf)) <$> performance in
  set_performance_file (json_dump (JDict data)) w.

Definition _ensure_files (w : PersonaManager) : PersonaManager :=
  let w := if exists_ (state_file w) then w else _save_state w in
  let w := if exists_ (history_file w) then w else _save_history (JList []) w in
  if exists_ (performance_file w) then w else _save_performance ∅ w.

(** [PersonaManager(project_path)] on the project directory held by [w] *)
Definition PersonaManager_init (w : PersonaManager) : res PersonaManager :=
  let w := set_current_context None w in
  let w := _ensure_files w in
  _load_state w.

(** *** The agent context notifier *)

Definition context_paths : gmap string string :=
  list_to_map [
    ("copilot", ".github/CURRENT_PERSONA.md");
    ("claude", ".claude/CURRENT_PERSONA.md");
    ("cursor-agent", ".cursor/CURRENT_PERSONA.md");
    ("windsurf", ".windsurf/CURRENT_PERSONA.md");
    ("gemini", ".gemini/CURRENT_PERSONA.md");
    ("qwen", ".qwen/CURRENT_PERSONA.md");
    ("opencode", ".opencode/CURRENT_PERSONA.md");
    ("codex", ".codex/CURRENT_PERSONA.md");
    ("kilocode", ".kilocode/CURRENT_PERSONA.md");
    ("auggie", ".augment/CURRENT_PERSONA.md");
    ("codebuddy", ".codebuddy/CURRENT_PERSONA.md");
    ("roo", ".roo/CURRENT_PERSONA.md");
    ("q", ".amazonq/CURRENT_PERSONA.md");
    ("amp", ".agents/CURRENT_PERSONA.md") ].

(** [phase or 'Not specified'] reads an empty phase as no phase. *)
Definition shown_phase (ph : option string) : option string :=
  match ph with
  | Some s => if nonempty s then Some s else None
  | None => None
  end.

Definition create_agent_context_file (ai_assistant : string)
    (pid : option string) (ph : option string) (w : PersonaManager)
    : bool * PersonaManager :=
  match context_paths !! ai_assistant with
  | None => (false, w)
  | Some context_file =>
      match pid with
      | None =>
          (* no active persona: the marker file is removed *)
          (true, set_agent_files (delete context_file (agent_files w)) w)
      | Some pid =>
          let content := {| marker_assistant := ai_assistant;
                            marker_persona := pid;
                            marker_phase := shown_phase ph |} in
          (true, set_agent_files (<[context_file := content]> (agent_files w)) w)
      end
  end.

Definition _update_agent_context (ai_assistant : string) (pid : option string)
    (ph : option string) (w : PersonaManager) : PersonaManager :=
  snd (create_agent_context_file ai_assistant pid ph w).

(** *** The performance aggregator *)

Definition has_error_note (context : PersonaContext) : bool :=
  existsb (λ note, contains "error" (lower note)) (notes context).

Definition _update_performance (context : PersonaContext) (duration : float)
    (w : PersonaManager) : res PersonaManager :=
  performance ← _load_performance w;
  let pid := persona_id context in
  let performance :=
    if bool_decide (pid ∈ dom performance) then performance
    else <[pid := PersonaPerformance_new pid]> performance in
  match performance !! pid with
  | None => Raise KeyError
  | Some perf =>
      let sessions := total_sessions perf + 1 in
      let seconds := fadd (total_duration_seconds perf) duration in
      let created :=
        artifacts_created perf + Z.of_nat (length (artifacts context)) in
      let phases :=
        match phase context with
        | Some ph =>
            if nonempty ph
            then <[ph := default 0 (phases_completed perf !! ph) + 1]>
                   (phases_completed perf)
            else phases_completed perf
        | None => phases_completed perf
        end in
      let errors :=
        if has_error_note context then error_count perf + 1
        else error_count perf in
      let rate :=
        if 0 <? sessions
        then fmul (truediv (sessions - errors) sessions) (float_of_int 100)
        else success_rate perf in
      let perf :=
        {| perf_persona_id := perf_persona_id perf;
           total_sessions := sessions;
           total_duration_seconds := seconds;
           phases_completed := phases;
           artifacts_created := created;
           error_count := errors;
           success_rate := rate;
           last_active := deactivated_at context |} in
      Ok (_save_performance (<[pid := perf]> performance) w)
  end.

(** *** The lifecycle *)

(** [history.append(entry)] *)
Definition list_append (history entry : json) : res json :=
  match history with
  | JList l => Ok (JList (l ++ [entry]))
  | _ => Raise AttributeError
  end.

(** [datetime.fromisoformat(s)] *)
Definition parse_datetime (s : string) : res datetime :=
  match fromisoformat s with
  | Some t => Ok t
  | None => Raise ValueError
  end.

Definition with_deactivated_at (c : PersonaContext) (t : string)
    : PersonaContext :=
  {| persona_id := persona_id c; activated_at := activated_at c;
     deactivated_at := Some t; phase := phase c; artifacts := artifacts c;
     metrics := metrics c; notes := notes c |}.

(** The argument [ai_assistant] is accepted and not used. *)
Definition deactivate_persona (ai_assistant : option string)
    (w : PersonaManager)
    : res (option (gmap string json) * PersonaManager) :=
  match current_context w with
  | None => Ok (None, w)
  | Some c =>
      let '(now, w) := datetime_now w in
      let c := with_deactivated_at c (isoformat now) in
      let w := set_current_context (Some c) w in
      start ← parse_datetime (activated_at c);
      (* the [deactivated_at] set two lines above *)
      end_ ← parse_datetime (isoformat now);
      let duration := total_seconds end_ start in
      history ← _load_history w;
      history ← list_append history (JDict (asdict_context c));
      let w := _save_history history w in
      w ← _update_performance c duration w;
      let result : gmap string json :=
        list_to_map [
          ("status", JStr "deactivated");
          ("persona", JStr (persona_id c));
          ("duration_seconds", JFloat duration);
          ("artifacts", JInt (Z.of_nat (length (artifacts c)))) ] in
      let w := set_current_context None w in
      let w := _save_state w in
      Ok (Some result, w)
  end.

Definition activate_persona (pid : string) (ph : option string)
    (ai_assistant : option string) (w : PersonaManager)
    : res (gmap string json * PersonaManager) :=
  w ← match current_context w with
      | Some _ => snd <$> deactivate_persona ai_assistant w
      | None => Ok w
      end;
  let '(now, w) := datetime_now w in
  let c := {| persona_id := pid; activated_at := isoformat now;
              deactivated_at := None; phase := ph; artifacts := [];
              metrics := ∅; notes := [] |} in
  let w := set_current_context (Some c) w in
  let w := _save_state w in
  let w := match ai_assistant with
           | Some a =>
               if nonempty a then _update_agent_context a (Some pid) ph w
               else w
           | None => w
           end in
  let result : gmap string json :=
    list_to_map [
      ("status", JStr "activated");
      ("persona", JStr pid);
      ("phase", of_opt_str ph);
      ("activated_at", JStr (activated_at c)) ] in
  Ok (result, w).

Definition switch_persona (new_persona_id : string) (ph : option string)
    (ai_assistant : option string) (w : PersonaManager)
    : res (gmap string json * PersonaManager) :=
  '(previous, w) ←
    match current_context w with
    | Some c =>
        '(_, w) ← deactivate_persona ai_assistant w;
        Ok (Some (persona_id c), w)
    | None => Ok (None, w)
    end;
  '(result, w) ← activate_persona new_persona_id ph ai_assistant w;
  Ok (<["previous_persona" := of_opt_str previous]> result, w).

Definition get_current_persona (w : PersonaManager) : option string :=
  persona_id <$> current_context w.

Definition add_artifact (artifact_path : string) (w : PersonaManager)
    : PersonaManager :=
  match current_context w with
  | Some c =>
      let c := {| persona_id := persona_id c; activated_at := activated_at c;
                  deactivated_at := deactivated_at c; phase := phase c;
                  artifacts := artifacts c ++ [artifact_path];
                  metrics := metrics c; notes := notes c |} in
      _save_state (set_current_context (Some c) w)
  | None => w
  end.

Definition add_note (note : string) (w : PersonaManager) : PersonaManager :=
  match current_context w with
  | Some c =>
      let '(now, w) := datetime_now w in
      let stamped := "[" +:+ isoformat now +:+ "] " +:+ note in
      let c := {| persona_id := persona_id c; activated_at := activated_at c;
                  deactivated_at := deactivated_at c; phase := phase c;
                  artifacts := artifacts c; metrics := metrics c;
                  notes := notes c ++ [stamped] |} in
      _save_state (set_current_context (Some c) w)
  | None => w
  end.

Definition update_phase (ph : string) (w : PersonaManager) : PersonaManager :=
  match current_context w with
  | Some c =>
      let c := {| persona_id := persona_id c; activated_at := activated_at c;
                  deactivated_at := deactivated_at c; phase := Some ph;
                  artifacts := artifacts c; metrics := metrics c;
                  notes := notes c |} in
      _save_state (set_current_context (Some c) w)
  | None => w
  end.

(** ** Notions the properties are stated with *)

(** A call of the public interface. *)
Inductive call :=
  | Activate (pid : string) (ph : option string) (ai : option string)
  | Switch (pid : string) (ph : option string) (ai : option string)
  | Deactivate (ai : option string)
  | AddArtifact (artifact_path : string)
  | AddNote (note : string)
  | UpdatePhase (ph : string).

Definition run_call (k : call) (w : PersonaManager) : res PersonaManager :=
  match k with
  | Activate pid ph ai => snd <$> activate_persona pid ph ai w
  | Switch pid ph ai => snd <$> switch_persona pid ph ai w
  | Deactivate ai => snd <$> deactivate_persona ai w
  | AddArtifact a => Ok (add_artifact a w)
  | AddNote n => Ok (add_note n w)
  | UpdatePhase ph => Ok (update_phase ph w)
  end.

Fixpoint run_calls (ks : list call) (w : PersonaManager) : res PersonaManager :=
  match ks with
  | [] => Ok w
  | k :: ks => run_call k w ≫= run_calls ks
  end.

(** A context is active while it has no [deactivated_at]; so is the
    snapshot of one in the history. *)
Definition context_active (c : PersonaContext) : bool :=
  match deactivated_at c with None => true | Some _ => false end.

Definition entry_active (e : json) : bool :=
  match e with
  | JDict m =>
      match default JNull (m !! "deactivated_at") with
      | JNull => true
      | _ => false
      end
  | _ => false
  end.

Definition history_entries (w : PersonaManager) : list json :=
  match _load_history w with
  | Ok (JList l) => l
  | _ => []
  end.

(** The number of active contexts of the project: the current one, if it
    is active, and the active snapshots of the history. *)
Definition active_contexts (w : PersonaManager) : nat :=
  (match current_context w with
   | Some c => if context_active c then 1 else 0
   | None => 0
   end + length (filter (λ e, entry_active e = true) (history_entries w)))%nat.

(** A project the manager left behind: the activation time of the current
    context is readable, the history is a list of deactivated snapshots,
    and the performance record loads. *)
Definition well_formed (w : PersonaManager) : bool :=
  match current_context w with
  | Some c => bool_decide (is_Some (fromisoformat (activated_at c)))
  | None => true
  end &&
  match _load_history w with
  | Ok (JList l) => forallb (λ e, negb (entry_active e)) l
  | _ => false
  end &&
  bool_decide (is_ok (_load_performance w)).

(** The performance record of a persona, as [_update_performance] looks it
    up: the stored one, or a fresh one. *)
Definition record_of (m : gmap string PersonaPerformance) (pid : string)
    : PersonaPerformance :=
  default (PersonaPerformance_new pid) (m !! pid).

(** The completed sessions of a persona between two states of the project:
    each is a deactivation of that persona that returned, recorded as the
    context it ended and the duration it reported. Whatever happens in
    between leaves the performance record of the persona as it is. *)
Inductive sessions (pid : string)
    : PersonaManager → list (PersonaContext * float) → PersonaManager → Prop :=
  | sessions_nil w : sessions pid w [] w
  | sessions_snoc w ss w1 w2 w3 m1 m2 c ai r d :
      sessions pid w ss w1 →
      _load_performance w1 = Ok m1 →
      _load_performance w2 = Ok m2 →
      m1 !! pid = m2 !! pid →
      current_context w2 = Some c →
      persona_id c = pid →
      deactivate_persona ai w2 = Ok (Some r, w3) →
      r !! "duration_seconds" = Some (JFloat d) →
      sessions pid w (ss ++ [(c, d)]) w3.

(** What [_update_performance] makes of the record of the persona. *)
Definition fold_session (context : PersonaContext) (duration : float)
    (perf : PersonaPerformance) : PersonaPerformance :=
  let sessions := total_sessions perf + 1 in
  let errors :=
    if has_error_note context then error_count perf + 1
    else error_count perf in
  {| perf_persona_id := perf_persona_id perf;
     total_sessions := sessions;
     total_duration_seconds := fadd (total_duration_seconds perf) duration;
     phases_completed :=
       match phase context with
       | Some ph =>
           if nonempty ph
           then <[ph := default 0 (phases_completed perf !! ph) + 1]>
                  (phases_completed perf)
           else phases_completed perf
       | None => phases_completed perf
       end;
     artifacts_created :=
       artifacts_created perf + Z.of_nat (length (artifacts context));
     error_count := errors;
     success_rate :=
       if 0 <? sessions
       then fmul (truediv (sessions - errors) sessions) (float_of_int 100)
       else success_rate perf;
     last_active := deactivated_at context |}.

(** The invariant of a stored performance record. *)
Definition record_bounded (perf : PersonaPerformance) : Prop :=
  0 ≤ error_count perf ≤ total_sessions perf ∧
  fle (float_of_int 0) (success_rate perf) ∧
  fle (success_rate perf) (float_of_int 100).

(** Folding sessions into the performance record, one after the other. *)
Fixpoint fold_sessions (ss : list (PersonaContext * float))
    (w : PersonaManager) : res PersonaManager :=
  match ss with
  | [] => Ok w
  | (c, d) :: ss => _update_performance c d w ≫= fold_sessions ss
  end.

(** [sum] of floats, added from the left as the aggregator adds them, and
    of integers. *)
Definition fsum (ds : list float) : float :=
  foldl fadd (float_of_int 0) ds.

Definition zsum (ns : list Z) : Z := foldl Z.add 0 ns.

(** The sessions with a note that mentions an error. *)
Definition errors_in (ss : list (PersonaContext * float)) : Z :=
  Z.of_nat (length (filter (λ s, has_error_note s.1 = true) ss)).

Definition artifact_counts (ss : list (PersonaContext * float)) : list Z :=
  (λ s, Z.of_nat (length (artifacts s.1))) <$> ss.

(** ** The rest of the interface *)

(** [x[k]] *)
Definition subscript (x : json) (k : string) : res json :=
  match x with
  | JDict m =>
      match m !! k with
      | Some v => Ok v
      | None => Raise KeyError
      end
  | _ => Raise TypeError
  end.

(** [list.sort(key=..., reverse=True)] on entries paired with their keys:
    a stable sort, so entries with equal keys keep their order. *)
Fixpoint insert_desc (x : string * json) (l : list (string * json))
    : list (string * json) :=
  match l with
  | [] => [x]
  | y :: l' =>
      if String.ltb x.1 y.1 then y :: insert_desc x l' else x :: y :: l'
  end.

Definition sort_desc (l : list (string * json)) : list (string * json) :=
  foldr insert_desc [] l.

(** [l[:limit]] *)
Definition slice_to {A} (limit : Z) (l : list A) : list A :=
  if 0 <=? limit then take (Z.to_nat limit) l
  else take (length l - Z.to_nat (- limit)) l.

(** [l[-n:]] for a positive [n] *)
Definition last_n {A} (n : nat) (l : list A) : list A :=
  drop (length l - n) l.

(** The keys are computed for all entries before any is compared; a key is
    annotated as a string. *)
Definition get_session_history (limit : Z) (w : PersonaManager)
    : res (list json) :=
  history ← _load_history w;
  match history with
  | JList l =>
      keys ← mapM (λ x, subscript x "activated_at") l;
      keys ← typed (mapM as_str keys);
      Ok (slice_to limit (snd <$> sort_desc (zip keys l)))
  | _ => Raise AttributeError
  end.

(** *** VS Code settings *)

Definition recommendations_key : string := "chat.promptFilesRecommendations".

Context `{RL : PyLocale}.

(** [json.load(f)] on a file opened as text, told apart by what it raises:
    [f.read()] raises [UnicodeDecodeError] on bytes that do not decode,
    before anything is parsed; text that decodes and is not JSON raises
    [json.JSONDecodeError]. Both are [Exception]s, which is all the
    handlers of the manager look at ([json_load]); the handler of the
    settings catches the second only. *)
Definition json_load_text (f : file) : res json :=
  match f with
  | Unparsable text =>
      if decodes text then Raise JSONDecodeError else Raise UnicodeDecodeError
  | _ => json_load f
  end.

(** The settings as loaded: [json.load] under
    [except json.JSONDecodeError] when the file exists, [{}] when it does
    not. Any other exception leaves the function. *)
Definition load_settings (settings_file : file) : res json :=
  if exists_ settings_file then
    match json_load_text settings_file with
    | Raise JSONDecodeError => Ok (JDict ∅)
    | r => r
    end
  else Ok (JDict ∅).

(** The membership test, the item assignments and the subscript of the
    update raise [TypeError] on whatever is not a dict. *)
Definition recommend (pid : string) (settings : json) : res json :=
  match settings with
  | JDict m =>
      let m :=
        if bool_decide (recommendations_key ∈ dom m) then m
        else <[recommendations_key := JDict ∅]> m in
      match m !! recommendations_key with
      | Some (JDict recs) =>
          Ok (JDict (<[recommendations_key :=
                         JDict (<["persona." +:+ pid := JBool true]> recs)]> m))
      | _ => Raise TypeError
      end
  | _ => Raise TypeError
  end.

(** The settings file after the call; on an exception it is not written. *)
Definition create_vscode_settings_persona (pid : option string)
    (settings_file : file) : res (bool * file) :=
  settings ← load_settings settings_file;
  settings ← match pid with
             | Some p => if nonempty p then recommend p settings
                         else Ok settings
             | None => Ok settings
             end;
  Ok (true, json_dump settings).

(** *** The persona switching command file *)

Record chatmode := {
  chatmode_dir : string;
  chatmode_ext : string;
  chatmode_format : string
}.

Definition CHATMODE_CONFIG : gmap string chatmode :=
  list_to_map [
    ("copilot", {| chatmode_dir := ".github/chatmodes";
                   chatmode_ext := ".chatmode.md";
                   chatmode_format := "copilot-beast" |});
    ("claude", {| chatmode_dir := ".claude/personas"; chatmode_ext := ".md";
                  chatmode_format := "markdown-beast" |});
    ("gemini", {| chatmode_dir := ".gemini/personas"; chatmode_ext := ".toml";
                  chatmode_format := "toml-beast" |});
    ("cursor-agent", {| chatmode_dir := ".cursor/personas";
                        chatmode_ext := ".md";
                        chatmode_format := "markdown-beast" |});
    ("qwen", {| chatmode_dir := ".qwen/personas"; chatmode_ext := ".toml";
                chatmode_format := "toml-beast" |});
    ("opencode", {| chatmode_dir := ".opencode/personas";
                    chatmode_ext := ".md";
                    chatmode_format := "markdown-beast" |});
    ("codex", {| chatmode_dir := ".codex/personas"; chatmode_ext := ".md";
                 chatmode_format := "markdown-beast" |});
    ("windsurf", {| chatmode_dir := ".windsurf/personas";
                    chatmode_ext := ".md";
                    chatmode_format := "markdown-beast" |});
    ("kilocode", {| chatmode_dir := ".kilocode/personas";
                    chatmode_ext := ".md";
                    chatmode_format := "markdown-beast" |});
    ("auggie", {| chatmode_dir := ".augment/personas"; chatmode_ext := ".md";
                  chatmode_format := "markdown-beast" |});
    ("codebuddy", {| chatmode_dir := ".codebuddy/personas";
                     chatmode_ext := ".md";
                     chatmode_format := "markdown-beast" |});
    ("roo", {| chatmode_dir := ".roo/personas"; chatmode_ext := ".md";
               chatmode_format := "markdown-beast" |});
    ("q", {| chatmode_dir := ".amazonq/personas"; chatmode_ext := ".md";
             chatmode_format := "markdown-beast" |});
    ("amp", {| chatmode_dir := ".agents/personas"; chatmode_ext := ".md";
               chatmode_format := "markdown-beast" |}) ].

(** The command file holds one of two fixed texts. *)
Inductive command_text := TomlCommands | MarkdownCommands.

Definition create_persona_command_file (ai_assistant : string)
    (files : gmap string command_text) : bool * gmap string command_text :=
  match CHATMODE_CONFIG !! ai_assistant with
  | None => (false, files)
  | Some chatmode_cfg =>
      let command_file :=
        chatmode_dir chatmode_cfg +:+ "/" +:+
        "persona-switch" +:+ chatmode_ext chatmode_cfg in
      let content :=
        if String.eqb (chatmode_format chatmode_cfg) "toml-beast"
        then TomlCommands else MarkdownCommands in
      (true, <[command_file := content]> files)
  end.

(** The key [get_session_history] sorts a snapshot by, and the order it
    leaves between an entry and a later one: the key of the later one is
    not the greater. *)
Definition activated_key (e : json) : string :=
  match e with
  | JDict m =>
      match m !! "activated_at" with
      | Some (JStr k) => k
      | _ => ""
      end
  | _ => ""
  end.

Definition has_activated_key (e : json) : bool :=
  match e with
  | JDict m =>
      match m !! "activated_at" with
      | Some (JStr _) => true
      | _ => false
      end
  | _ => false
  end.

Definition not_older (a b : json) : Prop :=
  String.ltb (activated_key a) (activated_key b) = false.

Definition keys_descend (a b : string * json) : Prop :=
  String.ltb a.1 b.1 = false.

Definition older (a b : json) : Prop :=
  String.ltb (activated_key a) (activated_key b) = true.

(** The recommendations a settings dict holds: none yet, those of the dict
    under the key, or something that is no dict. *)
Definition recommendations (m : gmap string json)
    : option (gmap string json) :=
  match m !! recommendations_key with
  | None => Some ∅
  | Some (JDict recs) => Some recs
  | Some _ => None
  end.

(** The state file holds the current context of the manager. *)
Definition persisted (w : PersonaManager) : Prop :=
  ∃ t, state_file w =
    json_dump (JDict (list_to_map [
      ("current_persona",
       match current_context w with
       | Some c => JDict (asdict_context c)
       | None => JNull
       end);
      ("updated_at", JStr t) ])).

(** The sessions of a list that ended in a given phase. *)
Definition sessions_in_phase (ph : string)
    (ss : list (PersonaContext * float)) : Z :=
  Z.of_nat (length (filter (λ s, phase s.1 = Some ph) ss)).

End Runtime.

(** ** Reports

    [round(x, 2)] and the division of a float by an integer are further
    operations of the runtime; the reports use them and nothing else. *)

Class PyDisplay `{RT : PyRuntime} := {
  round2 : float → float;
  fdiv_int : float → Z → float
}.

Section Reports.
Context `{RD : PyDisplay}.

Definition get_context_summary (w : PersonaManager)
    : res (gmap string json * PersonaManager) :=
  match current_context w with
  | None => Ok ({[ "status" := JStr "no_active_persona" ]}, w)
  | Some c =>
      start ← parse_datetime (activated_at c);
      let '(now, w) := datetime_now w in
      let duration := total_seconds now start in
      Ok (list_to_map [
            ("status", JStr "active");
            ("persona", JStr (persona_id c));
            ("phase", of_opt_str (phase c));
            ("duration_seconds", JFloat (round2 duration));
            ("artifacts", JList (JStr <$> artifacts c));
            ("notes", JList (JStr <$> last_n 5 (notes c)));
            ("activated_at", JStr (activated_at c)) ], w)
  end.

Definition _format_performance (perf : PersonaPerformance)
    : gmap string json :=
  let avg_duration_minutes :=
    if 0 <? total_sessions perf
    then fdiv_int (fdiv_int (total_duration_seconds perf)
                     (total_sessions perf)) 60
    else truediv 0 60 in
  list_to_map [
    ("persona_id", JStr (perf_persona_id perf));
    ("total_sessions", JInt (total_sessions perf));
    ("total_duration_minutes",
     JFloat (round2 (fdiv_int (total_duration_seconds perf) 60)));
    ("average_duration_minutes", JFloat (round2 avg_duration_minutes));
    ("phases_completed", JDict (JInt <$> phases_completed perf));
    ("artifacts_created", JInt (artifacts_created perf));
    ("error_count", JInt (error_count perf));
    ("success_rate", JFloat (round2 (success_rate perf)));
    ("last_active", of_opt_str (last_active perf)) ].

(** The records of the report, when no persona is asked for. *)
Definition format_all (performance : gmap string PersonaPerformance)
    : gmap string json :=
  (λ perf, JDict (_format_performance perf)) <$> performance.

Definition get_performance_report (pid : option string) (w : PersonaManager)
    : res (gmap string json) :=
  match _load_performance w with
  | Ok performance =>
      match pid with
      | Some p =>
          if nonempty p then
            match performance !! p with
            | Some perf => Ok (_format_performance perf)
            | None =>
                Ok {[ "error" :=
                        JStr ("No performance data for persona: " +:+ p) ]}
            end
          else Ok (format_all performance)
      | None => Ok (format_all performance)
      end
  | Raise e => Raise e
  | IllTyped => IllTyped
  end.

End Reports.

(** ** A reference runtime

    Exact rational arithmetic for the floats and microsecond counts printed
    in decimal for the datetimes: an instance of the interface on which
    the operations can be run. *)

Module Reference.

Definition q_of_int (n : Z) : Q := inject_Z n.
Definition q_add (x y : Q) : Q := Qred (x + y).
Definition q_mul (x y : Q) : Q := Qred (x * y).
Definition q_truediv (a b : Z) : Q := Qred (inject_Z a / inject_Z b).
Definition q_is_zero (x : Q) : bool := Qeq_bool x 0.
Definition micro_isoformat (t : Z) : string :=
  NilEmpty.string_of_int (Z.to_int t).
Definition micro_fromisoformat (s : string) : option Z :=
  Z.of_int <$> NilEmpty.int_of_string s.
Definition micro_total_seconds (e s : Z) : Q := Qred ((e - s) # 1000000).

Lemma micro_roundtrip (t : Z) :
  micro_fromisoformat (micro_isoformat t) = Some t.
Proof.
  unfold micro_fromisoformat, micro_isoformat.
  rewrite NilEmpty.isi. simpl. f_equal. apply DecimalZ.of_to.
Qed.

Lemma q_truediv_unit (a b : Z) :
  0 ≤ a ≤ b → 0 < b →
  (q_of_int 0 <= q_truediv a b)%Q ∧ (q_truediv a b <= q_of_int 1)%Q.
Proof.
  intros [Ha Hab] Hb. unfold q_truediv, q_of_int.
  rewrite Qred_correct.
  assert (Hb' : (0 < inject_Z b)%Q).
  { change 0%Q with (inject_Z 0). by rewrite <- Zlt_Qlt. }
  split.
  - apply Qle_shift_div_l; [exact Hb'|].
    rewrite Qmult_0_l. change 0%Q with (inject_Z 0). by rewrite <- Zle_Qle.
  - apply Qle_shift_div_r; [exact Hb'|].
    rewrite Qmult_1_l. by rewrite <- Zle_Qle.
Qed.

Lemma q_mul_percent (x : Q) :
  (q_of_int 0 <= x)%Q → (x <= q_of_int 1)%Q →
  (q_of_int 0 <= q_mul x (q_of_int 100))%Q ∧
  (q_mul x (q_of_int 100) <= q_of_int 100)%Q.
Proof.
  unfold q_mul, q_of_int. intros H0 H1. rewrite Qred_correct. split.
  - apply Qmult_le_0_compat; [exact H0|done].
  - apply Qle_trans with (1 * inject_Z 100)%Q.
    + apply Qmult_le_compat_r; [exact H1|done].
    + rewrite Qmult_1_l. apply Qle_refl.
Qed.

#[export] Instance runtime : PyRuntime := {|
  float := Q;
  float_of_int := q_of_int;
  fadd := q_add;
  fmul := q_mul;
  truediv := q_truediv;
  fle := Qle;
  float_is_zero := q_is_zero;
  datetime := Z;
  isoformat := micro_isoformat;
  fromisoformat := micro_fromisoformat;
  total_seconds := micro_total_seconds;
  fromisoformat_isoformat := micro_roundtrip;
  truediv_unit := q_truediv_unit;
  fmul_percent := q_mul_percent
|}.

(** An empty project directory, read at the given instants. *)
Definition empty_project (clk : nat → Z) : PersonaManager :=
  {| current_context := None; state_file := Absent; history_file := Absent;
     performance_file := Absent; agent_files := ∅; clock := clk; ticks := 0 |}.

(** One reading of the clock every minute. *)
Definition minutes (n : nat) : Z := Z.of_nat n * 60000000.

Definition run_or (d : PersonaManager) (r : res PersonaManager)
    : PersonaManager :=
  match r with Ok w => w | _ => d end.

(** The outcome of a deactivation, taken apart. *)
Definition deactivates (ai : option string) (w : PersonaManager) : bool :=
  match deactivate_persona ai w with Ok (Some _, _) => true | _ => false end.
Definition result_of (ai : option string) (w : PersonaManager)
    : gmap string json :=
  match deactivate_persona ai w with Ok (Some r, _) => r | _ => ∅ end.
Definition after_deactivate (ai : option string) (w : PersonaManager)
    : PersonaManager :=
  match deactivate_persona ai w with Ok (_, w') => w' | _ => w end.
Definition performance_of (w : PersonaManager)
    : gmap string PersonaPerformance :=
  match _load_performance w with Ok m => m | _ => ∅ end.

(** A manager constructed on the empty project. *)
Definition fresh : PersonaManager :=
  run_or (empty_project minutes) (PersonaManager_init (empty_project minutes)).

(** Two sessions of [tech-lead], the first with an artifact and a note that
    reports an error: the manager before and after each deactivation. *)
Definition tech_lead_1 : PersonaManager :=
  run_or fresh
    (run_calls [Activate "tech-lead" (Some "implement") None;
                AddArtifact "src/build.py";
                AddNote "Error: build failed"] fresh).
Definition tech_lead_2 : PersonaManager := after_deactivate None tech_lead_1.
Definition tech_lead_3 : PersonaManager :=
  run_or tech_lead_2 (run_calls [Activate "tech-lead" None None] tech_lead_2).
Definition tech_lead_4 : PersonaManager := after_deactivate None tech_lead_3.

Definition first_session : PersonaContext :=
  {| persona_id := "tech-lead"; activated_at := "60000000";
     deactivated_at := None; phase := Some "implement";
     artifacts := ["src/build.py"]; metrics := ∅;
     notes := ["[240000000] Error: build failed"] |}.
Definition second_session : PersonaContext :=
  {| persona_id := "tech-lead"; activated_at := "480000000";
     deactivated_at := None; phase := None; artifacts := []; metrics := ∅;
     notes := [] |}.
Definition tech_lead_sessions : list (PersonaContext * Q) :=
  [(first_session, 300%Q); (second_session, 120%Q)].

(** Rounding to two decimals, ties to even, and float by integer. *)
Definition q_round2 (x : Q) : Q :=
  let scaled := (x * 100)%Q in
  let n := Qfloor scaled in
  let rest := (scaled - inject_Z n)%Q in
  let up :=
    match (rest ?= 1 # 2)%Q with
    | Lt => false
    | Gt => true
    | Eq => negb (Z.even n)
    end in
  Qred ((if up then n + 1 else n) # 100).
Definition q_div_int (x : Q) (n : Z) : Q := Qred (x / inject_Z n).

#[export] Instance display : PyDisplay := {|
  round2 := q_round2;
  fdiv_int := q_div_int
|}.

(** A platform whose encoding is ASCII: bytes decode when each is below
    128. *)
Fixpoint ascii_decodes (text : string) : bool :=
  match text with
  | EmptyString => true
  | String c rest => (Ascii.N_of_ascii c <? 128)%N && ascii_decodes rest
  end.

#[export] Instance locale : PyLocale := {|
  decodes := ascii_decodes
|}.

(** A manager whose current context has an unreadable activation time. *)
Definition unreadable : PersonaManager :=
  set_current_context
    (Some {| persona_id := "tech-lead"; activated_at := "yesterday";
             deactivated_at := None; phase := None; artifacts := [];
             metrics := ∅; notes := [] |}) fresh.

(** [tech-lead] active over a history file that holds a dict, over no
    history file, and over a performance file with a record that cannot be
    built. *)
Definition history_is_dict : PersonaManager :=
  set_history_file (Document (JDict ∅)) tech_lead_1.
Definition history_absent : PersonaManager :=
  set_history_file Absent tech_lead_1.
Definition damaged_records : gmap string json :=
  <["ghost" := JNull]>
    ((λ perf, JDict (asdict_performance perf)) <$> performance_of tech_lead_4).
Definition performance_damaged : PersonaManager :=
  set_performance_file (Document (JDict damaged_records)) tech_lead_1.

(** A project whose state and performance files were written by hand, with
    the required keys only. *)
Definition stored_context : gmap string json :=
  <["persona_id" := JStr "tech-lead"]>
    {[ "activated_at" := JStr "2025-01-01T09:00:00" ]}.
Definition stored_records : gmap string json :=
  {[ "tech-lead" := JDict {[ "persona_id" := JStr "tech-lead" ]} ]}.
Definition hand_written : PersonaManager :=
  set_performance_file (Document (JDict stored_records))
    (set_state_file
       (Document (JDict {[ "current_persona" := JDict stored_context ]}))
       fresh).

(** Settings files that are not JSON: text, and bytes outside ASCII. *)
Definition half_written : file := Unparsable "{".
Definition undecodable : file :=
  Unparsable (String (Ascii.ascii_of_N 255) EmptyString).

(** A history of two sessions in chronological order. *)
Definition snapshot (activated : string) : json :=
  JDict {[ "activated_at" := JStr activated ]}.
Definition two_entries : list json :=
  [snapshot "2025-01-01T09:00:00"; snapshot "2025-01-02T09:00:00"].
Definition with_history : PersonaManager :=
  set_history_file (json_dump (JList two_entries)) fresh.

(** [tech-lead] active, with no notes yet. *)
Definition fresh_active : PersonaManager :=
  set_current_context (Some second_session) fresh.

(** [business-analyst] activated for the assistant [copilot]. *)
Definition analyst_active : PersonaManager :=
  run_or fresh
    (run_calls [Activate "business-analyst" (Some "specify") (Some "copilot")]
       fresh).

End Reference.


(** * Properties *)

Section Properties.
Context `{RT : PyRuntime}.

#[local] Arguments asdict_context : simpl never.
#[local] Arguments asdict_performance : simpl never.
#[local] Arguments fold_session : simpl never.
#[local] Arguments truthy : simpl never.
#[local] Arguments recommend : simpl never.
#[local] Arguments recommendations : simpl never.

(** ** Reading back what was written *)

Lemma mapM_as_str (l : list string) : mapM as_str (JStr <$> l) = Some l.
Proof.
  induction l as [|s l IH]; [done|].
  rewrite fmap_cons. simpl. rewrite IH. done.
Qed.

Lemma as_opt_str_of_opt_str (o : option string) :
  as_opt_str (of_opt_str o) = Some o.
Proof. by destruct o. Qed.

Lemma map_view_fmap {A B} (f : A → option B) (g : B → A) (m : gmap string B) :
  (∀ x, f (g x) = Some x) → map_view f (g <$> m) = Some m.
Proof.
  intros Hfg. unfold map_view. rewrite bool_decide_eq_true_2.
  - f_equal. apply map_eq. intros k.
    rewrite lookup_omap, lookup_fmap.
    destruct (m !! k); simpl; [apply Hfg|done].
  - intros k x. rewrite lookup_fmap.
    destruct (m !! k); simpl; [|done].
    intros [= <-]. rewrite Hfg. by eexists.
Qed.

Lemma PersonaContext_init_asdict (c : PersonaContext) :
  PersonaContext_init (asdict_context c) = Ok c.
Proof.
  unfold PersonaContext_init.
  change (bool_decide (dom (asdict_context c) ⊆ context_fields)) with true.
  change (asdict_context c !! "persona_id") with (Some (JStr (persona_id c))).
  change (asdict_context c !! "activated_at")
    with (Some (JStr (activated_at c))).
  unfold kwarg.
  change (asdict_context c !! "deactivated_at")
    with (Some (of_opt_str (deactivated_at c))).
  change (asdict_context c !! "phase") with (Some (of_opt_str (phase c))).
  change (asdict_context c !! "artifacts")
    with (Some (JList (JStr <$> artifacts c))).
  change (asdict_context c !! "metrics") with (Some (JDict (metrics c))).
  change (asdict_context c !! "notes") with (Some (JList (JStr <$> notes c))).
  simpl. rewrite !as_opt_str_of_opt_str. simpl.
  rewrite !mapM_as_str. simpl. by destruct c.
Qed.

Lemma PersonaPerformance_init_asdict (p : PersonaPerformance) :
  PersonaPerformance_init (asdict_performance p) = Ok p.
Proof.
  unfold PersonaPerformance_init.
  change (bool_decide (dom (asdict_performance p) ⊆ performance_fields))
    with true.
  change (asdict_performance p !! "persona_id")
    with (Some (JStr (perf_persona_id p))).
  unfold kwarg.
  change (asdict_performance p !! "total_sessions")
    with (Some (JInt (total_sessions p))).
  change (asdict_performance p !! "total_duration_seconds")
    with (Some (JFloat (total_duration_seconds p))).
  change (asdict_performance p !! "phases_completed")
    with (Some (JDict (JInt <$> phases_completed p))).
  change (asdict_performance p !! "artifacts_created")
    with (Some (JInt (artifacts_created p))).
  change (asdict_performance p !! "error_count")
    with (Some (JInt (error_count p))).
  change (asdict_performance p !! "success_rate")
    with (Some (JFloat (success_rate p))).
  change (asdict_performance p !! "last_active")
    with (Some (of_opt_str (last_active p))).
  simpl. rewrite (map_view_fmap as_int JInt) by done. simpl.
  rewrite as_opt_str_of_opt_str. simpl. by destruct p.
Qed.

Lemma dict_comprehension_asdict (m : gmap string PersonaPerformance) :
  dict_comprehension (λ pdata, kwargs_of pdata ≫= PersonaPerformance_init)
    ((λ perf, JDict (asdict_performance perf)) <$> m) = Ok m.
Proof.
  unfold dict_comprehension. rewrite bool_decide_eq_true_2.
  - rewrite (map_view_fmap _ (λ perf, JDict (asdict_performance perf))); [done|].
    intros p. simpl. by rewrite PersonaPerformance_init_asdict.
  - intros k v. rewrite lookup_fmap.
    destruct (m !! k) as [p|]; simpl; [|done].
    intros [= <-]. simpl. rewrite PersonaPerformance_init_asdict. by intros [].
Qed.

Lemma load_save_performance (m : gmap string PersonaPerformance)
    (w : PersonaManager) :
  _load_performance (_save_performance m w) = Ok m.
Proof.
  unfold _load_performance, _save_performance. simpl.
  by rewrite dict_comprehension_asdict.
Qed.

Lemma load_performance_document (m : gmap string PersonaPerformance)
    (w : PersonaManager) :
  performance_file w =
    json_dump (JDict ((λ perf, JDict (asdict_performance perf)) <$> m)) →
  _load_performance w = Ok m.
Proof.
  intros Hf. unfold _load_performance. rewrite Hf. simpl.
  by rewrite dict_comprehension_asdict.
Qed.

Lemma load_save_history (h : json) (w : PersonaManager) :
  _load_history (_save_history h w) = Ok h.
Proof. done. Qed.

Lemma truthy_asdict_context (c : PersonaContext) :
  truthy (JDict (asdict_context c)) = true.
Proof. done. Qed.

Lemma load_state_saved (w : PersonaManager) (c : PersonaContext)
    (o : option PersonaContext) :
  current_context w = Some c →
  _load_state (set_current_context o (_save_state w)) = Ok (_save_state w).
Proof.
  intros Hc. unfold _load_state, _save_state. rewrite Hc. simpl.
  rewrite lookup_insert_eq. simpl.
  rewrite truthy_asdict_context. simpl.
  rewrite PersonaContext_init_asdict. simpl.
  unfold set_current_context, set_state_file. simpl. by rewrite Hc.
Qed.

(** ** The performance aggregator as a function of the record *)

Lemma update_performance_eq (c : PersonaContext) (d : float)
    (w : PersonaManager) (m : gmap string PersonaPerformance) :
  _load_performance w = Ok m →
  _update_performance c d w =
    Ok (_save_performance
          (<[persona_id c := fold_session c d (record_of m (persona_id c))]> m)
          w).
Proof.
  intros Hm. unfold _update_performance. rewrite Hm. simpl.
  unfold record_of. case_bool_decide as Hin.
  - apply elem_of_dom in Hin as [perf Hperf]. rewrite Hperf. done.
  - apply not_elem_of_dom in Hin. rewrite lookup_insert_eq, Hin. simpl.
    by rewrite insert_insert_eq.
Qed.

(** ** The state store *)

(** C5: a persona context saved to the state store and loaded again is the
    context that was saved, field for field, whatever the manager held in
    memory when it loaded. *)
Theorem state_roundtrip (w : PersonaManager) (c : PersonaContext)
    (o : option PersonaContext) :
  let saved := _save_state (set_current_context (Some c) w) in
  ∃ w', _load_state (set_current_context o saved) = Ok w' ∧
        current_context w' = Some c.
Proof.
  intros saved. exists saved. split; [|done].
  by apply (load_state_saved _ c).
Qed.

Lemma try_except_recovers {A} (body : res A) (a : A) :
  ¬ raises (try_except body (λ _, Ok a)).
Proof. destruct body; simpl; tauto. Qed.

Lemma init_context_truthy (kw : gmap string json) :
  ¬ raises (PersonaContext_init kw) → truthy (JDict kw) = true.
Proof.
  intros Hinit. unfold truthy. case_bool_decide as Hsize; [|done].
  apply map_size_empty_iff in Hsize. subst kw. destruct Hinit.
  unfold PersonaContext_init. case_bool_decide; [|done].
  by rewrite !lookup_empty.
Qed.

(** C6: no load of the state store raises, whatever the file holds, and
    what each load returns is determined by the file as follows.
    - The history load gives the parsed document, and the empty list when
      the file is absent or unparsable.
    - The performance load gives the empty mapping unless the file holds a
      dict each of whose values builds a record without an exception: in
      particular when the file is absent, unparsable or holds something
      else than a dict. When every value builds a well-typed record it
      gives exactly these records, under the keys of the file; so it gives
      back the mapping that [_save_performance] wrote.
    - The state load of a manager that holds no context, as at
      construction, gives no context unless the file holds a dict whose
      [current_persona] is a dict that builds a context without an
      exception: in particular when the file is absent, unparsable, not a
      dict, or has no current persona. When it builds a well-typed context
      the load gives exactly that context, all else of the manager
      unchanged; so it gives back the context that [_save_state] wrote.
    - When a parsed value does not have the type its field is annotated
      with, the object is built all the same and nothing is raised. *)
Theorem loads_never_raise (w : PersonaManager) :
  let build := λ pdata, kwargs_of pdata ≫= PersonaPerformance_init in
  let w0 := set_current_context None w in
  (* nothing is raised *)
  (¬ raises (_load_history w) ∧ ¬ raises (_load_performance w) ∧
   ¬ raises (_load_state w)) ∧
  (* history *)
  _load_history w =
    Ok (match history_file w with Document v => v | _ => JList [] end) ∧
  (* performance *)
  ((∀ data, performance_file w = Document (JDict data) →
      ∃ pid v, data !! pid = Some v ∧ raises (build v)) →
   _load_performance w = Ok ∅) ∧
  (∀ data, performance_file w = Document (JDict data) →
     (∀ pid v, data !! pid = Some v → is_ok (build v)) →
     ∃ m, _load_performance w = Ok m ∧
       ∀ pid, m !! pid = data !! pid ≫= (λ v, res_value (build v))) ∧
  (∀ data, performance_file w = Document (JDict data) →
     (∀ pid v, data !! pid = Some v → ¬ raises (build v)) →
     (∃ pid v, data !! pid = Some v ∧ build v = IllTyped) →
     _load_performance w = IllTyped) ∧
  (∀ m, performance_file w =
          json_dump (JDict ((λ perf, JDict (asdict_performance perf)) <$> m)) →
     _load_performance w = Ok m) ∧
  (* current context *)
  ((∀ data kw, state_file w = Document (JDict data) →
      data !! "current_persona" = Some (JDict kw) →
      raises (PersonaContext_init kw)) →
   _load_state w0 = Ok w0) ∧
  (∀ data kw c, state_file w = Document (JDict data) →
     data !! "current_persona" = Some (JDict kw) →
     PersonaContext_init kw = Ok c →
     _load_state w0 = Ok (set_current_context (Some c) w)) ∧
  (∀ data kw, state_file w = Document (JDict data) →
     data !! "current_persona" = Some (JDict kw) →
     PersonaContext_init kw = IllTyped →
     _load_state w0 = IllTyped) ∧
  (∀ c t, state_file w =
            json_dump (JDict (list_to_map [
              ("current_persona", JDict (asdict_context c));
              ("updated_at", JStr t) ])) →
     _load_state w0 = Ok (set_current_context (Some c) w)).
Proof.
  intros build w0.
  split; [split; [|split]|].
  { apply try_except_recovers. }
  { apply try_except_recovers. }
  { apply try_except_recovers. }
  split.
  { unfold _load_history. by destruct (history_file w). }
  split.
  { intros Hraise. unfold _load_performance.
    destruct (performance_file w) as [|text|v]; simpl; [done..|].
    destruct v as [| | | | | |data]; simpl; try done.
    destruct (Hraise data eq_refl) as (pid & v & Hv & Hr).
    unfold dict_comprehension. case_bool_decide as Hall; [|done].
    destruct (Hall pid v Hv Hr). }
  split.
  { intros data Hf Hok. unfold _load_performance. rewrite Hf. simpl.
    unfold dict_comprehension. rewrite bool_decide_eq_true_2.
    2:{ intros pid v Hv. specialize (Hok pid v Hv). fold (build v).
        destruct (build v); simpl in *; tauto. }
    unfold map_view. rewrite bool_decide_eq_true_2.
    2:{ intros pid v Hv. specialize (Hok pid v Hv). fold (build v).
        by destruct (build v). }
    simpl. eexists. split; [done|]. intros pid.
    rewrite lookup_omap. by destruct (data !! pid). }
  split.
  { intros data Hf Hnr (pid & v & Hv & Hill).
    unfold _load_performance. rewrite Hf. simpl.
    unfold dict_comprehension. rewrite bool_decide_eq_true_2 by done.
    unfold map_view. rewrite bool_decide_eq_false_2; [done|].
    intros Hall. specialize (Hall pid v Hv). simpl in Hall.
    fold (build v) in Hall. rewrite Hill in Hall. by destruct Hall. }
  split.
  { intros m. apply load_performance_document. }
  split.
  { intros Hraise. unfold _load_state. simpl.
    destruct (state_file w) as [|text|v]; simpl; [done..|].
    destruct v as [| | | | | |data]; simpl; try done.
    destruct (data !! "current_persona") as [cur|] eqn:Hcur; simpl;
      [|done].
    destruct (truthy cur) eqn:Ht; simpl; [|done].
    destruct cur as [| | | | | |kw]; simpl; try done.
    specialize (Hraise data kw eq_refl Hcur).
    by destruct (PersonaContext_init kw). }
  assert (Hbuilt : ∀ data kw, state_file w = Document (JDict data) →
    data !! "current_persona" = Some (JDict kw) →
    ¬ raises (PersonaContext_init kw) →
    _load_state w0 =
      c ← PersonaContext_init kw; Ok (set_current_context (Some c) w)).
  { intros data kw Hf Hcur Hinit. unfold _load_state. simpl.
    rewrite Hf. simpl. rewrite Hcur. simpl.
    rewrite (init_context_truthy kw Hinit). simpl.
    by destruct (PersonaContext_init kw). }
  split.
  { intros data kw c Hf Hcur Hinit.
    rewrite (Hbuilt data kw Hf Hcur) by (rewrite Hinit; simpl; tauto).
    by rewrite Hinit. }
  split.
  { intros data kw Hf Hcur Hinit.
    rewrite (Hbuilt data kw Hf Hcur) by (rewrite Hinit; simpl; tauto).
    by rewrite Hinit. }
  intros c t Hf.
  rewrite (Hbuilt _ (asdict_context c) Hf).
  - by rewrite PersonaContext_init_asdict.
  - apply lookup_insert_eq.
  - rewrite PersonaContext_init_asdict. simpl. tauto.
Qed.

(** ** The lifecycle on an idle manager, and the mutators *)

Lemma deactivate_persona_idle (w : PersonaManager) (ai : option string) :
  current_context w = None → deactivate_persona ai w = Ok (None, w).
Proof. intros Hidle. unfold deactivate_persona. by rewrite Hidle. Qed.

Lemma switch_persona_eq (pid : string) (ph ai : option string)
    (w : PersonaManager) :
  switch_persona pid ph ai w =
    ('(_, w1) ← deactivate_persona ai w;
     '(result, w2) ← activate_persona pid ph ai w1;
     Ok (<["previous_persona" := of_opt_str (get_current_persona w)]> result,
         w2)).
Proof.
  unfold switch_persona, get_current_persona.
  destruct (current_context w) as [c|] eqn:Hc; simpl.
  - destruct (deactivate_persona ai w) as [[r w1]| |]; done.
  - rewrite (deactivate_persona_idle w ai Hc). done.
Qed.

(** C7: deactivating an idle manager returns nothing and leaves the
    manager, and with it the history and the performance record, as they
    were. *)
Theorem deactivate_idle (w : PersonaManager) (ai : option string) :
  current_context w = None →
  ∃ w', deactivate_persona ai w = Ok (None, w') ∧
        history_file w' = history_file w ∧
        performance_file w' = performance_file w ∧
        w' = w.
Proof.
  intros Hidle. exists w. by rewrite (deactivate_persona_idle w ai Hidle).
Qed.

(** C9: on an active context, [add_artifact] appends to the artifacts,
    [add_note] appends the stamped note to the notes and [update_phase]
    replaces the phase; each leaves every other field, among them
    [persona_id], [activated_at] and [deactivated_at], as it was. *)
Theorem mutators_frame (w : PersonaManager) (c : PersonaContext)
    (a n ph : string) :
  current_context w = Some c →
  (∃ c', current_context (add_artifact a w) = Some c' ∧
     artifacts c' = (artifacts c ++ [a])%list ∧
     persona_id c' = persona_id c ∧ activated_at c' = activated_at c ∧
     deactivated_at c' = deactivated_at c ∧ phase c' = phase c ∧
     notes c' = notes c ∧ metrics c' = metrics c) ∧
  (∃ c', current_context (add_note n w) = Some c' ∧
     notes c' =
       (notes c ++ ["[" +:+ isoformat (clock w (ticks w)) +:+ "] " +:+ n])%list ∧
     persona_id c' = persona_id c ∧ activated_at c' = activated_at c ∧
     deactivated_at c' = deactivated_at c ∧ phase c' = phase c ∧
     artifacts c' = artifacts c ∧ metrics c' = metrics c) ∧
  (∃ c', current_context (update_phase ph w) = Some c' ∧
     phase c' = Some ph ∧
     persona_id c' = persona_id c ∧ activated_at c' = activated_at c ∧
     deactivated_at c' = deactivated_at c ∧ artifacts c' = artifacts c ∧
     notes c' = notes c ∧ metrics c' = metrics c).
Proof.
  intros Hc. unfold add_artifact, add_note, update_phase. rewrite Hc.
  repeat split; eexists; (split; [reflexivity|]); done.
Qed.

(** C8: switching is deactivating, which does nothing on an idle manager,
    and then activating; the result is that of the activation with the
    persona that was current before the call, or null, under
    [previous_persona]. *)
Theorem switch_is_deactivate_then_activate (pid : string)
    (ph ai : option string) (w : PersonaManager) :
  switch_persona pid ph ai w =
    ('(_, w1) ← deactivate_persona ai w;
     '(result, w2) ← activate_persona pid ph ai w1;
     Ok (<["previous_persona" := of_opt_str (get_current_persona w)]> result,
         w2)) ∧
  match switch_persona pid ph ai w with
  | Ok (result, _) =>
      result !! "previous_persona" = Some (of_opt_str (get_current_persona w))
  | _ => True
  end.
Proof.
  pose proof (switch_persona_eq pid ph ai w) as Heq.
  split; [exact Heq|]. rewrite Heq.
  destruct (deactivate_persona ai w) as [[r w1]| |]; simpl; [|done..].
  destruct (activate_persona pid ph ai w1) as [[result w2]| |]; simpl;
    [|done..].
  apply lookup_insert_eq.
Qed.

(** ** What a deactivation does *)

Lemma load_history_ext (w w' : PersonaManager) :
  history_file w = history_file w' → _load_history w = _load_history w'.
Proof. unfold _load_history. by intros ->. Qed.

Lemma load_performance_ext (w w' : PersonaManager) :
  performance_file w = performance_file w' →
  _load_performance w = _load_performance w'.
Proof. unfold _load_performance. by intros ->. Qed.

Lemma deactivate_persona_active (w : PersonaManager) (c : PersonaContext)
    (ai : option string) (start : datetime) (l : list json)
    (m : gmap string PersonaPerformance) :
  current_context w = Some c →
  fromisoformat (activated_at c) = Some start →
  _load_history w = Ok (JList l) →
  _load_performance w = Ok m →
  let now := clock w (ticks w) in
  let c' := with_deactivated_at c (isoformat now) in
  let d := total_seconds now start in
  deactivate_persona ai w =
    Ok (Some (list_to_map [
                ("status", JStr "deactivated");
                ("persona", JStr (persona_id c));
                ("duration_seconds", JFloat d);
                ("artifacts", JInt (Z.of_nat (length (artifacts c)))) ]),
        {| current_context := None;
           state_file :=
             json_dump (JDict (list_to_map [
               ("current_persona", JNull);
               ("updated_at", JStr (isoformat (clock w (S (ticks w))))) ]));
           history_file := json_dump (JList (l ++ [JDict (asdict_context c')]));
           performance_file :=
             performance_file
               (_save_performance
                  (<[persona_id c :=
                       fold_session c' d (record_of m (persona_id c))]> m) w);
           agent_files := agent_files w;
           clock := clock w;
           ticks := S (S (ticks w)) |}).
Proof.
  intros Hc Hstart Hl Hm now c' d.
  unfold deactivate_persona. rewrite Hc. simpl.
  unfold parse_datetime. simpl. rewrite Hstart, fromisoformat_isoformat. simpl.
  fold now. fold c'. fold d.
  match goal with
  | |- context [_load_history ?w'] =>
      rewrite <- (load_history_ext w w') by done
  end.
  rewrite Hl. simpl.
  match goal with
  | |- context [_update_performance c' d ?w'] =>
      rewrite (update_performance_eq c' d w' m)
        by (by rewrite <- (load_performance_ext w w'))
  end.
  simpl. done.
Qed.

Lemma activate_persona_idle (pid : string) (ph ai : option string)
    (w : PersonaManager) :
  current_context w = None →
  ∃ r w', activate_persona pid ph ai w = Ok (r, w') ∧
    current_context w' =
      Some {| persona_id := pid;
              activated_at := isoformat (clock w (ticks w));
              deactivated_at := None; phase := ph; artifacts := [];
              metrics := ∅; notes := [] |} ∧
    history_file w' = history_file w ∧
    performance_file w' = performance_file w.
Proof.
  intros Hidle. unfold activate_persona. rewrite Hidle. simpl.
  eexists _, _. split; [reflexivity|].
  destruct ai as [a|]; [destruct (nonempty a)|]; try done.
  unfold _update_agent_context, create_agent_context_file.
  by destruct (context_paths !! a).
Qed.

Lemma activate_persona_after_deactivate (pid : string) (ph ai : option string)
    (w w1 : PersonaManager) (c : PersonaContext)
    (r : option (gmap string json)) :
  current_context w = Some c →
  deactivate_persona ai w = Ok (r, w1) →
  current_context w1 = None →
  activate_persona pid ph ai w = activate_persona pid ph ai w1.
Proof.
  intros Hc Hd Hidle. unfold activate_persona.
  rewrite Hc, Hd, Hidle. done.
Qed.

(** ** Well-formed projects *)

Lemma forallb_negb_Forall {A} (f : A → bool) (l : list A) :
  forallb (λ x, negb (f x)) l = true ↔ Forall (λ x, f x = false) l.
Proof.
  induction l as [|x l IH]; simpl.
  - split; [constructor|done].
  - rewrite andb_true_iff, Forall_cons, IH, negb_true_iff. done.
Qed.

Lemma well_formed_spec (w : PersonaManager) :
  well_formed w = true ↔
  (∀ c, current_context w = Some c →
     is_Some (fromisoformat (activated_at c))) ∧
  (∃ l, _load_history w = Ok (JList l) ∧
     Forall (λ e, entry_active e = false) l) ∧
  (∃ m, _load_performance w = Ok m).
Proof.
  unfold well_formed. rewrite !andb_true_iff, bool_decide_eq_true.
  split.
  - intros [[Hcur Hhist] Hperf]. repeat split.
    + intros c Hc. rewrite Hc in Hcur. by apply bool_decide_eq_true in Hcur.
    + destruct (_load_history w) as [[| | | | |l|]| |]; try done.
      exists l. split; [done|]. by apply forallb_negb_Forall.
    + destruct (_load_performance w) as [m| |]; try done. by exists m.
  - intros (Hcur & (l & Hl & Hall) & (m & Hm)). repeat split.
    + destruct (current_context w) as [c|]; [|done].
      apply bool_decide_eq_true. by apply Hcur.
    + rewrite Hl. by apply forallb_negb_Forall.
    + by rewrite Hm.
Qed.

Lemma entry_active_deactivated (c : PersonaContext) (t : string) :
  entry_active (JDict (asdict_context (with_deactivated_at c t))) = false.
Proof. done. Qed.

Lemma well_formed_deactivate (w : PersonaManager) (c : PersonaContext)
    (ai : option string) :
  well_formed w = true →
  current_context w = Some c →
  ∃ l r w',
    _load_history w = Ok (JList l) ∧
    deactivate_persona ai w = Ok (Some r, w') ∧
    current_context w' = None ∧
    _load_history w' =
      Ok (JList (l ++ [JDict (asdict_context
                   (with_deactivated_at c (isoformat (clock w (ticks w)))))])) ∧
    well_formed w' = true.
Proof.
  intros Hwf Hc.
  apply well_formed_spec in Hwf as (Hcur & (l & Hl & Hall) & (m & Hm)).
  destruct (Hcur c Hc) as [start Hstart].
  pose proof (deactivate_persona_active w c ai start l m Hc Hstart Hl Hm)
    as Hd.
  simpl in Hd. eexists l, _, _. split; [done|]. split; [exact Hd|].
  split; [done|]. split; [done|].
  apply well_formed_spec. repeat split.
  - done.
  - eexists. split; [reflexivity|].
    apply Forall_app. split; [done|].
    apply Forall_singleton, entry_active_deactivated.
  - eexists. by apply load_performance_document.
Qed.

Lemma well_formed_activate_idle (w : PersonaManager) (pid : string)
    (ph ai : option string) :
  well_formed w = true →
  current_context w = None →
  ∃ r w' c,
    activate_persona pid ph ai w = Ok (r, w') ∧
    current_context w' = Some c ∧ persona_id c = pid ∧
    context_active c = true ∧
    _load_history w' = _load_history w ∧
    well_formed w' = true.
Proof.
  intros Hwf Hidle.
  destruct (activate_persona_idle pid ph ai w Hidle)
    as (r & w' & Ha & Hc' & Hh & Hp).
  eexists r, w', _. split; [done|]. split; [exact Hc'|].
  split; [done|]. split; [done|].
  split; [by apply load_history_ext|].
  apply well_formed_spec in Hwf as (_ & (l & Hl & Hall) & (m & Hm)).
  apply well_formed_spec. repeat split.
  - intros c. rewrite Hc'. intros [= <-]. simpl.
    rewrite fromisoformat_isoformat. by eexists.
  - exists l. by rewrite (load_history_ext w' w).
  - exists m. by rewrite (load_performance_ext w' w).
Qed.

Lemma well_formed_activate (w : PersonaManager) (pid : string)
    (ph ai : option string) :
  well_formed w = true →
  ∃ r w', activate_persona pid ph ai w = Ok (r, w') ∧ well_formed w' = true.
Proof.
  intros Hwf. destruct (current_context w) as [c|] eqn:Hc.
  - destruct (well_formed_deactivate w c ai Hwf Hc)
      as (l & r & w1 & _ & Hd & Hidle & _ & Hwf1).
    rewrite (activate_persona_after_deactivate pid ph ai w w1 c _ Hc Hd Hidle).
    destruct (well_formed_activate_idle w1 pid ph ai Hwf1 Hidle)
      as (r' & w2 & c2 & Ha & _ & _ & _ & _ & Hwf2).
    by exists r', w2.
  - destruct (well_formed_activate_idle w pid ph ai Hwf Hc)
      as (r' & w2 & c2 & Ha & _ & _ & _ & _ & Hwf2).
    by exists r', w2.
Qed.

Lemma well_formed_save_state (w : PersonaManager)
    (o : option PersonaContext) :
  well_formed w = true →
  (∀ c, o = Some c → is_Some (fromisoformat (activated_at c))) →
  well_formed (_save_state (set_current_context o w)) = true.
Proof.
  intros Hwf Ho.
  apply well_formed_spec in Hwf as (_ & (l & Hl & Hall) & (m & Hm)).
  apply well_formed_spec. repeat split.
  - done.
  - exists l. by rewrite (load_history_ext _ w).
  - exists m. by rewrite (load_performance_ext _ w).
Qed.

Lemma well_formed_run_call (k : call) (w : PersonaManager) :
  well_formed w = true →
  ∃ w', run_call k w = Ok w' ∧ well_formed w' = true.
Proof.
  intros Hwf. destruct k as [pid ph ai|pid ph ai|ai|a|n|ph]; simpl.
  - destruct (well_formed_activate w pid ph ai Hwf) as (r & w' & -> & Hwf').
    by exists w'.
  - rewrite switch_persona_eq.
    destruct (current_context w) as [c|] eqn:Hc.
    + destruct (well_formed_deactivate w c ai Hwf Hc)
        as (l & r & w1 & _ & -> & _ & _ & Hwf1). simpl.
      destruct (well_formed_activate w1 pid ph ai Hwf1)
        as (r' & w2 & -> & Hwf2).
      by exists w2.
    + rewrite (deactivate_persona_idle w ai Hc). simpl.
      destruct (well_formed_activate w pid ph ai Hwf)
        as (r' & w2 & -> & Hwf2).
      by exists w2.
  - destruct (current_context w) as [c|] eqn:Hc.
    + destruct (well_formed_deactivate w c ai Hwf Hc)
        as (l & r & w1 & _ & -> & _ & _ & Hwf1).
      by exists w1.
    + rewrite (deactivate_persona_idle w ai Hc). by exists w.
  - eexists. split; [done|]. unfold add_artifact.
    destruct (current_context w) as [c|] eqn:Hc; [|done].
    apply well_formed_save_state; [done|]. intros c' [= <-]. simpl.
    apply well_formed_spec in Hwf as (Hcur & _). by apply Hcur.
  - eexists. split; [done|]. unfold add_note.
    destruct (current_context w) as [c|] eqn:Hc; [|done].
    apply well_formed_spec in Hwf as (Hcur & (l & Hl & Hall) & (m & Hm)).
    apply well_formed_spec. repeat split.
    + simpl. intros c' [= <-]. simpl. by apply Hcur.
    + exists l. by rewrite (load_history_ext _ w).
    + exists m. by rewrite (load_performance_ext _ w).
  - eexists. split; [done|]. unfold update_phase.
    destruct (current_context w) as [c|] eqn:Hc; [|done].
    apply well_formed_save_state; [done|]. intros c' [= <-]. simpl.
    apply well_formed_spec in Hwf as (Hcur & _). by apply Hcur.
Qed.

Lemma well_formed_run_calls (ks : list call) (w : PersonaManager) :
  well_formed w = true →
  ∃ w', run_calls ks w = Ok w' ∧ well_formed w' = true.
Proof.
  revert w. induction ks as [|k ks IH]; intros w Hwf; simpl.
  - by exists w.
  - destruct (well_formed_run_call k w Hwf) as (w1 & -> & Hwf1). simpl.
    by apply IH.
Qed.

Lemma well_formed_init_empty (w : PersonaManager) :
  state_file w = Absent → history_file w = Absent →
  performance_file w = Absent →
  ∃ w', PersonaManager_init w = Ok w' ∧ current_context w' = None ∧
        well_formed w' = true.
Proof.
  intros Hs Hh Hp. unfold PersonaManager_init, _ensure_files. simpl.
  rewrite Hs. simpl. rewrite Hh. simpl. rewrite Hp. simpl.
  unfold _load_state. simpl. unfold truthy. simpl.
  eexists. split; [reflexivity|]. split; [done|].
  apply well_formed_spec. repeat split.
  - done.
  - by exists [].
  - exists ∅. apply load_performance_document. simpl. by rewrite fmap_empty.
Qed.

Lemma well_formed_active_contexts (w : PersonaManager) :
  well_formed w = true → (active_contexts w ≤ 1)%nat.
Proof.
  intros Hwf.
  apply well_formed_spec in Hwf as (_ & (l & Hl & Hall) & _).
  unfold active_contexts, history_entries. rewrite Hl.
  assert (filter (λ e, entry_active e = true) l = []) as ->.
  { clear Hl. induction Hall as [|e l He Hall IH]; [done|].
    rewrite filter_cons_False; [done|]. by rewrite He. }
  destruct (current_context w) as [c|]; [destruct (context_active c)|];
    simpl; lia.
Qed.

(** C1: from a well-formed project, every sequence of calls runs to the
    end and leaves a well-formed project with at most one active context,
    the history counted in. Activating from there while a context [c] is
    current first deactivates: the history gains exactly one entry, the
    snapshot of [c] with its deactivation time, and no context is current;
    only then is the new context created, and creating it leaves the
    history alone. *)
Theorem single_active_context (w : PersonaManager) (calls : list call) :
  well_formed w = true →
  ∃ w', run_calls calls w = Ok w' ∧
    well_formed w' = true ∧
    (active_contexts w' ≤ 1)%nat ∧
    ∀ c pid ph ai, current_context w' = Some c →
      ∃ l r w1 r' w2 c2,
        _load_history w' = Ok (JList l) ∧
        deactivate_persona ai w' = Ok (Some r, w1) ∧
        current_context w1 = None ∧
        _load_history w1 =
          Ok (JList (l ++ [JDict (asdict_context
                 (with_deactivated_at c
                    (isoformat (clock w' (ticks w')))))])) ∧
        activate_persona pid ph ai w' = activate_persona pid ph ai w1 ∧
        activate_persona pid ph ai w1 = Ok (r', w2) ∧
        _load_history w2 = _load_history w1 ∧
        current_context w2 = Some c2 ∧ persona_id c2 = pid ∧
        context_active c2 = true ∧
        (active_contexts w2 ≤ 1)%nat.
Proof.
  intros Hwf.
  destruct (well_formed_run_calls calls w Hwf) as (w' & Hrun & Hwf').
  exists w'. split; [done|]. split; [done|].
  split; [by apply well_formed_active_contexts|].
  intros c pid ph ai Hc.
  destruct (well_formed_deactivate w' c ai Hwf' Hc)
    as (l & r & w1 & Hl & Hd & Hidle & Hl1 & Hwf1).
  destruct (well_formed_activate_idle w1 pid ph ai Hwf1 Hidle)
    as (r' & w2 & c2 & Ha & Hc2 & Hpid & Hact & Hl2 & Hwf2).
  exists l, r, w1, r', w2, c2. repeat split; try done.
  - by apply (activate_persona_after_deactivate pid ph ai w' w1 c (Some r)).
  - by apply well_formed_active_contexts.
Qed.

Lemma deactivate_persona_agent_files (w w' : PersonaManager)
    (ai : option string) (r : option (gmap string json)) :
  deactivate_persona ai w = Ok (r, w') → agent_files w' = agent_files w.
Proof.
  intros Hd. destruct (current_context w) as [c|] eqn:Hc.
  - unfold deactivate_persona in Hd. rewrite Hc in Hd. simpl in Hd.
    destruct (parse_datetime (activated_at c)) as [start| |]; [|done..].
    simpl in Hd.
    destruct (parse_datetime (isoformat (clock w (ticks w)))) as [end_| |];
      [|done..].
    simpl in Hd.
    match type of Hd with
    | context [_load_history ?w0] => destruct (_load_history w0) as [h| |]
    end; [|done..].
    simpl in Hd. destruct (list_append h _) as [h'| |]; [|done..].
    simpl in Hd. unfold _update_performance in Hd.
    match type of Hd with
    | context [_load_performance ?w0] =>
        destruct (_load_performance w0) as [m| |]
    end; [|done..].
    simpl in Hd.
    match type of Hd with
    | context [match ?o with Some _ => _ | None => Raise KeyError end] =>
        destruct o as [perf|]
    end; [|done].
    simpl in Hd. by injection Hd as _ <-.
  - rewrite (deactivate_persona_idle w ai Hc) in Hd. by injection Hd as _ <-.
Qed.

Lemma update_agent_context_clears (ai path : string) (ph : option string)
    (w : PersonaManager) :
  context_paths !! ai = Some path →
  agent_files (_update_agent_context ai None ph w) !! path = None.
Proof.
  intros Hpath. unfold _update_agent_context, create_agent_context_file.
  rewrite Hpath. simpl. apply lookup_delete_eq.
Qed.

(** ** Sessions folded into the performance record *)

Lemma deactivate_persona_inv (w w' : PersonaManager) (c : PersonaContext)
    (ai : option string) (r : option (gmap string json)) :
  current_context w = Some c →
  deactivate_persona ai w = Ok (r, w') →
  ∃ start l, fromisoformat (activated_at c) = Some start ∧
             _load_history w = Ok (JList l).
Proof.
  intros Hc Hd. unfold deactivate_persona in Hd. rewrite Hc in Hd.
  simpl in Hd. unfold parse_datetime in Hd. simpl in Hd.
  destruct (fromisoformat (activated_at c)) as [start|]; [|done].
  rewrite fromisoformat_isoformat in Hd. simpl in Hd.
  unfold _load_history in *. simpl in Hd.
  exists start.
  destruct (history_file w) as [|text|[| | | | |l|]]; simpl in *;
    try done; by eexists.
Qed.

Lemma sessions_record (pid : string) (w w' : PersonaManager)
    (ss : list (PersonaContext * float)) :
  _load_performance w = Ok ∅ →
  sessions pid w ss w' →
  ∃ m, _load_performance w' = Ok m ∧
    (ss ≠ [] → is_Some (m !! pid)) ∧
    total_sessions (record_of m pid) = Z.of_nat (length ss) ∧
    total_duration_seconds (record_of m pid) = fsum ss.*2 ∧
    artifacts_created (record_of m pid) = zsum (artifact_counts ss) ∧
    error_count (record_of m pid) = errors_in ss ∧
    success_rate (record_of m pid) =
      if bool_decide (ss = []) then float_of_int 100
      else fmul (truediv (Z.of_nat (length ss) - errors_in ss)
                   (Z.of_nat (length ss))) (float_of_int 100).
Proof.
  intros Hempty Hss.
  induction Hss as [w|w ss w1 w2 w3 m1 m2 c ai r d Hss IH Hm1 Hm2 Hsame Hc
                      Hpid Hd Hr].
  - exists ∅. split; [done|]. split; [done|]. by unfold record_of.
  - destruct (IH Hempty) as (m & Hm & _ & Hts & Hdur & Hart & Herr & _).
    rewrite Hm in Hm1. injection Hm1 as ->.
    assert (Hrec : record_of m2 pid = record_of m1 pid).
    { unfold record_of. by rewrite Hsame. }
    destruct (deactivate_persona_inv w2 w3 c ai _ Hc Hd)
      as (start & l & Hstart & Hl).
    pose proof (deactivate_persona_active w2 c ai start l m2 Hc Hstart Hl Hm2)
      as Hd'.
    simpl in Hd'. rewrite Hd' in Hd. injection Hd as <- <-.
    rewrite !lookup_insert_ne, lookup_insert_eq in Hr by done.
    injection Hr as Hdeq. rewrite Hdeq in *. clear Hdeq.
    eexists. split; [by apply load_performance_document|].
    rewrite Hpid.
    set (c' := with_deactivated_at c (isoformat (clock w2 (ticks w2)))).
    set (m3 := <[pid := fold_session c' d (record_of m2 pid)]> m2).
    assert (Hrec3 : record_of m3 pid = fold_session c' d (record_of m1 pid)).
    { unfold record_of at 1, m3. rewrite lookup_insert_eq. simpl.
      by rewrite Hrec. }
    rewrite Hrec3.
    assert (Hlen : Z.of_nat (length (ss ++ [(c, d)])) = Z.of_nat (length ss) + 1).
    { rewrite length_app. simpl. lia. }
    assert (Herrs : errors_in (ss ++ [(c, d)]) =
                    if has_error_note c then errors_in ss + 1 else errors_in ss).
    { unfold errors_in. rewrite filter_app, length_app.
      destruct (has_error_note c) eqn:He.
      - rewrite (filter_cons_True _ (c, d)) by done. simpl. lia.
      - rewrite (filter_cons_False _ (c, d)) by (simpl; by rewrite He).
        simpl. lia. }
    split; [intros _; unfold m3; rewrite lookup_insert_eq; by eexists|].
    rewrite Hlen, Herrs. unfold fold_session. simpl.
    change (has_error_note c') with (has_error_note c).
    rewrite Hts, Hdur, Hart, Herr.
    unfold fsum, zsum, artifact_counts.
    rewrite !fmap_app, !foldl_app. simpl.
    rewrite bool_decide_eq_false_2 by (by destruct ss).
    repeat split; try done.
    destruct (0 <? Z.of_nat (length ss) + 1) eqn:Hpos; [done|].
    apply Z.ltb_ge in Hpos. lia.
Qed.

(** C3: when the performance mapping starts empty and [ss] are the
    completed sessions of a persona, in order, then after the last
    deactivation the record of the persona counts [length ss] sessions,
    its total duration is the sum of their durations and its artifact
    count the sum of their artifact counts. *)
Theorem aggregation_correct (pid : string) (w w' : PersonaManager)
    (ss : list (PersonaContext * float)) :
  _load_performance w = Ok ∅ →
  sessions pid w ss w' →
  ∃ m, _load_performance w' = Ok m ∧
    total_sessions (record_of m pid) = Z.of_nat (length ss) ∧
    total_duration_seconds (record_of m pid) = fsum ss.*2 ∧
    artifacts_created (record_of m pid) = zsum (artifact_counts ss).
Proof.
  intros Hempty Hss.
  destruct (sessions_record pid w w' ss Hempty Hss)
    as (m & Hm & _ & Hts & Hdur & Hart & _).
  by exists m.
Qed.

(** C4: when the performance mapping starts empty and [ss] are the
    completed sessions of a persona, [E] of them with a note that contains
    [error] in any case, the record of the persona has [error_count = E]
    and, with [S = length ss > 0], [success_rate = (S - E) / S * 100]; with
    no session the record is the fresh one, whose [success_rate] is 100. *)
Theorem success_rate_formula (pid : string) (w w' : PersonaManager)
    (ss : list (PersonaContext * float)) :
  _load_performance w = Ok ∅ →
  sessions pid w ss w' →
  ∃ m, _load_performance w' = Ok m ∧
    let S := Z.of_nat (length ss) in
    let E := errors_in ss in
    total_sessions (record_of m pid) = S ∧
    error_count (record_of m pid) = E ∧
    success_rate (record_of m pid) =
      (if bool_decide (S = 0) then float_of_int 100
       else fmul (truediv (S - E) S) (float_of_int 100)) ∧
    (S = 0 → record_of m pid = PersonaPerformance_new pid).
Proof.
  intros Hempty Hss.
  destruct (sessions_record pid w w' ss Hempty Hss)
    as (m & Hm & _ & Hts & _ & _ & Herr & Hrate).
  exists m. split; [done|]. simpl. split; [done|]. split; [done|].
  split.
  - rewrite Hrate. destruct ss as [|s ss]; [done|].
    rewrite !bool_decide_eq_false_2; [done| |done]. simpl. lia.
  - intros HS. destruct ss as [|s ss]; [|simpl in HS; lia].
    inversion Hss as [|? ss0 ? ? ? ? ? ? ? ? ? ? ? ? ? ? ? ? ? Heq]; subst.
    + rewrite Hempty in Hm. injection Hm as <-. done.
    + by destruct ss0.
Qed.

(** ** The invariant of the performance record *)

Lemma fold_session_bounds (c : PersonaContext) (d : float)
    (perf : PersonaPerformance) :
  0 ≤ error_count perf ≤ total_sessions perf →
  total_sessions (fold_session c d perf) = total_sessions perf + 1 ∧
  error_count perf ≤ error_count (fold_session c d perf)
    ≤ error_count perf + 1 ∧
  error_count (fold_session c d perf) ≤ total_sessions (fold_session c d perf) ∧
  fle (float_of_int 0) (success_rate (fold_session c d perf)) ∧
  fle (success_rate (fold_session c d perf)) (float_of_int 100).
Proof.
  intros [H0 Hle]. unfold fold_session. simpl.
  set (errors := if has_error_note c then error_count perf + 1
                 else error_count perf).
  assert (He : error_count perf ≤ errors ≤ error_count perf + 1).
  { unfold errors. destruct (has_error_note c); lia. }
  split; [done|]. split; [done|]. split; [lia|].
  destruct (0 <? total_sessions perf + 1) eqn:Hpos;
    [|apply Z.ltb_ge in Hpos; lia].
  apply Z.ltb_lt in Hpos.
  destruct (truediv_unit (total_sessions perf + 1 - errors)
              (total_sessions perf + 1)) as [Hlo Hhi]; [lia|done|].
  by apply fmul_percent.
Qed.

Lemma record_of_counts (m : gmap string PersonaPerformance) (pid : string) :
  map_Forall (λ _, record_bounded) m →
  0 ≤ error_count (record_of m pid) ≤ total_sessions (record_of m pid).
Proof.
  intros Hm. unfold record_of.
  destruct (m !! pid) as [perf|] eqn:Hperf; simpl; [|done].
  by destruct (Hm pid perf Hperf).
Qed.

Lemma update_performance_bounded (c : PersonaContext) (d : float)
    (w : PersonaManager) (m : gmap string PersonaPerformance) :
  _load_performance w = Ok m →
  map_Forall (λ _, record_bounded) m →
  ∃ w' m', _update_performance c d w = Ok w' ∧
    _load_performance w' = Ok m' ∧
    map_Forall (λ _, record_bounded) m' ∧
    m' = <[persona_id c := fold_session c d (record_of m (persona_id c))]> m.
Proof.
  intros Hm Hall. rewrite (update_performance_eq c d w m Hm).
  eexists _, _. split; [done|]. split; [apply load_save_performance|].
  split; [|done].
  apply map_Forall_insert_2; [|done].
  destruct (fold_session_bounds c d (record_of m (persona_id c)))
    as (Hts & Hec & Hle & Hlo & Hhi); [by apply record_of_counts|].
  pose proof (record_of_counts m (persona_id c) Hall).
  repeat split; [lia|done..].
Qed.

Lemma fold_sessions_bounded (ss : list (PersonaContext * float))
    (w : PersonaManager) (m : gmap string PersonaPerformance) :
  _load_performance w = Ok m →
  map_Forall (λ _, record_bounded) m →
  ∃ w' m', fold_sessions ss w = Ok w' ∧
    _load_performance w' = Ok m' ∧
    map_Forall (λ _, record_bounded) m'.
Proof.
  revert w m. induction ss as [|[c d] ss IH]; intros w m Hm Hall; simpl.
  - by exists w, m.
  - destruct (update_performance_bounded c d w m Hm Hall)
      as (w1 & m1 & -> & Hm1 & Hall1 & _). simpl.
    by apply (IH w1 m1).
Qed.

(** C10: every performance mapping reached from the empty one by folding
    sessions holds only records with [0 <= error_count <= total_sessions]
    and [0 <= success_rate <= 100]; folding one more session adds exactly
    one to [total_sessions] of its persona and at most one to its
    [error_count], and leaves the other records alone. *)
Theorem performance_invariant (w : PersonaManager)
    (ss : list (PersonaContext * float)) :
  _load_performance w = Ok ∅ →
  ∃ w' m, fold_sessions ss w = Ok w' ∧
    _load_performance w' = Ok m ∧
    (∀ pid perf, m !! pid = Some perf →
       0 ≤ error_count perf ≤ total_sessions perf ∧
       fle (float_of_int 0) (success_rate perf) ∧
       fle (success_rate perf) (float_of_int 100)) ∧
    ∀ c d, ∃ w'' m' perf',
      _update_performance c d w' = Ok w'' ∧
      _load_performance w'' = Ok m' ∧
      m' !! persona_id c = Some perf' ∧
      total_sessions perf' = total_sessions (record_of m (persona_id c)) + 1 ∧
      error_count (record_of m (persona_id c)) ≤ error_count perf'
        ≤ error_count (record_of m (persona_id c)) + 1 ∧
      (∀ q, q ≠ persona_id c → m' !! q = m !! q).
Proof.
  intros Hempty.
  destruct (fold_sessions_bounded ss w ∅ Hempty) as (w' & m & Hrun & Hm & Hall);
    [apply map_Forall_empty|].
  exists w', m. split; [done|]. split; [done|]. split.
  - intros pid perf Hperf. exact (Hall pid perf Hperf).
  - intros c d.
    destruct (update_performance_bounded c d w' m Hm Hall)
      as (w'' & m' & Hup & Hm' & _ & ->).
    destruct (fold_session_bounds c d (record_of m (persona_id c)))
      as (Hts & Hec & _); [by apply record_of_counts|].
    eexists w'', _, _. split; [done|]. split; [done|].
    split; [apply lookup_insert_eq|]. split; [done|]. split; [done|].
    intros q Hq. by rewrite lookup_insert_ne.
Qed.

(** ** A new manager on the project an old one left *)

Lemma save_state_persisted (w : PersonaManager) : persisted (_save_state w).
Proof. unfold persisted, _save_state. simpl. by eexists. Qed.

Lemma persisted_ext (w w' : PersonaManager) :
  state_file w' = state_file w → current_context w' = current_context w →
  persisted w → persisted w'.
Proof. unfold persisted. by intros -> ->. Qed.

Lemma load_state_persisted (w : PersonaManager) (o : option PersonaContext) :
  persisted w →
  _load_state (set_current_context None w) =
    Ok (set_current_context (current_context w) w).
Proof.
  intros [t Ht]. unfold _load_state. simpl. rewrite Ht. simpl.
  rewrite lookup_insert_eq. simpl.
  destruct (current_context w) as [c|]; simpl.
  - rewrite truthy_asdict_context. simpl.
    by rewrite PersonaContext_init_asdict.
  - done.
Qed.

Lemma init_persisted (w : PersonaManager) :
  persisted w →
  ∃ w', PersonaManager_init w = Ok w' ∧
    current_context w' = current_context w ∧
    state_file w' = state_file w ∧
    _load_history w' = _load_history w ∧
    _load_performance w' = _load_performance w ∧
    agent_files w' = agent_files w.
Proof.
  intros [t Ht]. destruct w as [cur sf hf pf af clk tk]. simpl in *.
  assert (He : exists_ sf = true) by (by rewrite Ht).
  unfold PersonaManager_init, _ensure_files. simpl. rewrite He.
  assert (Hload : ∀ hf' pf',
    _load_state
      {| current_context := None; state_file := sf;
         history_file := hf'; performance_file := pf'; agent_files := af;
         clock := clk; ticks := tk |} =
    Ok {| current_context := cur; state_file := sf;
          history_file := hf'; performance_file := pf'; agent_files := af;
          clock := clk; ticks := tk |}).
  { intros hf' pf'. unfold _load_state. simpl. rewrite Ht. simpl.
    rewrite lookup_insert_eq. simpl. destruct cur as [c|]; simpl; [|done].
    rewrite truthy_asdict_context. simpl.
    by rewrite PersonaContext_init_asdict. }
  destruct hf as [|htext|hv], pf as [|ptext|pv]; simpl;
    unfold _save_performance, _save_history, set_current_context,
      set_history_file, set_performance_file; simpl;
    rewrite Hload; (eexists; split; [reflexivity|]); simpl;
    repeat split; try done;
    unfold _load_performance; simpl; try done;
    unfold dict_comprehension, map_view;
    rewrite !bool_decide_eq_true_2
      by (rewrite fmap_empty; apply map_Forall_empty);
    simpl; by rewrite fmap_empty, omap_empty.
Qed.

Lemma update_agent_context_frame (a : string) (pid ph : option string)
    (w : PersonaManager) :
  let w' := _update_agent_context a pid ph w in
  current_context w' = current_context w ∧ state_file w' = state_file w ∧
  history_file w' = history_file w ∧
  performance_file w' = performance_file w ∧
  clock w' = clock w ∧ ticks w' = ticks w.
Proof.
  unfold _update_agent_context, create_agent_context_file.
  destruct (context_paths !! a); [destruct pid|]; done.
Qed.

Lemma deactivate_persona_ok (w w' : PersonaManager) (c : PersonaContext)
    (ai : option string) (r : option (gmap string json)) :
  current_context w = Some c →
  deactivate_persona ai w = Ok (r, w') →
  ∃ start l m, fromisoformat (activated_at c) = Some start ∧
    _load_history w = Ok (JList l) ∧ _load_performance w = Ok m.
Proof.
  intros Hc Hd.
  destruct (deactivate_persona_inv w w' c ai r Hc Hd)
    as (start & l & Hstart & Hl).
  exists start, l.
  destruct (_load_performance w) as [m| |] eqn:Hm; [by exists m|exfalso..].
  all: unfold deactivate_persona in Hd; rewrite Hc in Hd; simpl in Hd;
    unfold parse_datetime in Hd; simpl in Hd;
    rewrite Hstart, fromisoformat_isoformat in Hd; simpl in Hd;
    match type of Hd with
    | context [_load_history ?w0] =>
        rewrite <- (load_history_ext w w0) in Hd by done
    end;
    rewrite Hl in Hd; simpl in Hd; unfold _update_performance in Hd;
    match type of Hd with
    | context [_load_performance ?w0] =>
        rewrite <- (load_performance_ext w w0) in Hd by done
    end;
    by rewrite Hm in Hd.
Qed.

Lemma deactivate_persisted (w w' : PersonaManager) (ai : option string)
    (r : option (gmap string json)) :
  deactivate_persona ai w = Ok (r, w') → persisted w → persisted w'.
Proof.
  intros Hd Hp. destruct (current_context w) as [c|] eqn:Hc.
  - destruct (deactivate_persona_ok w w' c ai r Hc Hd)
      as (start & l & m & Hstart & Hl & Hm).
    rewrite (deactivate_persona_active w c ai start l m Hc Hstart Hl Hm) in Hd.
    injection Hd as _ <-. unfold persisted. simpl. by eexists.
  - rewrite (deactivate_persona_idle w ai Hc) in Hd. by injection Hd as _ <-.
Qed.

Lemma activate_persisted (w w' : PersonaManager) (pid : string)
    (ph ai : option string) (r : gmap string json) :
  activate_persona pid ph ai w = Ok (r, w') → persisted w'.
Proof.
  unfold activate_persona.
  destruct (match current_context w with
            | Some _ => snd <$> deactivate_persona ai w
            | None => Ok w
            end) as [w1| |]; simpl; [|done..].
  intros [= _ <-].
  destruct ai as [a|]; [destruct (nonempty a)|].
  - destruct (update_agent_context_frame a (Some pid) ph
                (_save_state (set_current_context
                   (Some {| persona_id := pid;
                            activated_at := isoformat (clock w1 (ticks w1));
                            deactivated_at := None; phase := ph;
                            artifacts := []; metrics := ∅; notes := [] |})
                   (datetime_now w1).2)))
      as (Hcur & Hsf & _).
    eapply persisted_ext; [exact Hsf|exact Hcur|apply save_state_persisted].
  - apply save_state_persisted.
  - apply save_state_persisted.
Qed.

Lemma run_call_persisted (k : call) (w w' : PersonaManager) :
  persisted w → run_call k w = Ok w' → persisted w'.
Proof.
  intros Hp. destruct k as [pid ph ai|pid ph ai|ai|a|n|ph]; simpl.
  - destruct (activate_persona pid ph ai w) as [[r w1]| |] eqn:Ha; [|done..].
    intros [= <-]. by eapply activate_persisted.
  - rewrite switch_persona_eq.
    destruct (deactivate_persona ai w) as [[r w1]| |]; simpl; [|done..].
    destruct (activate_persona pid ph ai w1) as [[r2 w2]| |] eqn:Ha; [|done..].
    intros [= <-]. by eapply activate_persisted.
  - destruct (deactivate_persona ai w) as [[r w1]| |] eqn:Hd; [|done..].
    intros [= <-]. by eapply deactivate_persisted.
  - intros [= <-]. unfold add_artifact.
    destruct (current_context w); [apply save_state_persisted|done].
  - intros [= <-]. unfold add_note.
    destruct (current_context w); [|done].
    apply (save_state_persisted (set_current_context _ (datetime_now w).2)).
  - intros [= <-]. unfold update_phase.
    destruct (current_context w); [apply save_state_persisted|done].
Qed.

Lemma run_calls_persisted (ks : list call) (w w' : PersonaManager) :
  persisted w → run_calls ks w = Ok w' → persisted w'.
Proof.
  revert w. induction ks as [|k ks IH]; intros w Hp; simpl.
  - by intros [= <-].
  - destruct (run_call k w) as [w1| |] eqn:Hk; simpl; [|done..].
    intros Hrun. eapply IH; [|exact Hrun]. by eapply run_call_persisted.
Qed.

(** X1: the current context survives the process. After any sequence of
    calls on a well-formed project whose state file holds its current
    context, a manager constructed anew on the project holds the same
    current context and loads the same history and performance record. *)
Theorem init_recovers_context (w : PersonaManager) (ks : list call) :
  well_formed w = true →
  persisted w →
  ∃ w' w'', run_calls ks w = Ok w' ∧
    PersonaManager_init w' = Ok w'' ∧
    current_context w'' = current_context w' ∧
    _load_history w'' = _load_history w' ∧
    _load_performance w'' = _load_performance w'.
Proof.
  intros Hwf Hp.
  destruct (well_formed_run_calls ks w Hwf) as (w' & Hrun & _).
  destruct (init_persisted w' (run_calls_persisted ks w w' Hp Hrun))
    as (w'' & Hinit & Hcur & _ & Hh & Hperf & _).
  by exists w', w''.
Qed.

(** ** The notifier *)

Lemma activate_idle_agent_files (pid : string) (ph ai : option string)
    (w : PersonaManager) :
  current_context w = None →
  ∃ r w', activate_persona pid ph ai w = Ok (r, w') ∧
    match ai ≫= (λ a, context_paths !! a) with
    | Some path =>
        agent_files w' =
          <[path := {| marker_assistant := default "" ai;
                       marker_persona := pid;
                       marker_phase := shown_phase ph |}]> (agent_files w)
    | None => agent_files w' = agent_files w
    end.
Proof.
  intros Hidle. unfold activate_persona. rewrite Hidle. simpl.
  eexists _, _. split; [reflexivity|].
  destruct ai as [a|]; simpl; [|done].
  destruct (nonempty a) eqn:Hne.
  - unfold _update_agent_context, create_agent_context_file.
    by destruct (context_paths !! a).
  - unfold nonempty in Hne. apply negb_false_iff, String.eqb_eq in Hne.
    by subst a.
Qed.

(** X2: activating on a well-formed project succeeds whatever assistant is
    named. When the assistant has a marker path, the marker there names the
    new persona and its phase and no other marker changes; when no
    assistant is named, or an empty or unknown one, the markers stay as
    they were. *)
Theorem activation_notifies (w : PersonaManager) (pid : string)
    (ph ai : option string) :
  well_formed w = true →
  ∃ r w', activate_persona pid ph ai w = Ok (r, w') ∧
    match ai ≫= (λ a, context_paths !! a) with
    | Some path =>
        agent_files w' =
          <[path := {| marker_assistant := default "" ai;
                       marker_persona := pid;
                       marker_phase := shown_phase ph |}]> (agent_files w)
    | None => agent_files w' = agent_files w
    end.
Proof.
  intros Hwf. destruct (current_context w) as [c|] eqn:Hc.
  - destruct (well_formed_deactivate w c ai Hwf Hc)
      as (l & r & w1 & _ & Hd & Hidle & _ & _).
    rewrite (activate_persona_after_deactivate pid ph ai w w1 c _ Hc Hd Hidle).
    rewrite <- (deactivate_persona_agent_files w w1 ai _ Hd).
    by apply activate_idle_agent_files.
  - by apply activate_idle_agent_files.
Qed.

(** X3: the notifier answers whether the assistant is known and touches
    nothing but the marker of that assistant: the manager's context and
    files and every other marker stay as they were. With a persona the
    marker names it; with none the marker is gone, so that writing and then
    clearing leaves no marker. *)
Theorem notifier_touches_own_marker (a : string) (pid ph ph' : option string)
    (w : PersonaManager) :
  let '(known, w') := create_agent_context_file a pid ph w in
  known = bool_decide (is_Some (context_paths !! a)) ∧
  current_context w' = current_context w ∧
  state_file w' = state_file w ∧ history_file w' = history_file w ∧
  performance_file w' = performance_file w ∧
  (∀ q, context_paths !! a ≠ Some q →
     agent_files w' !! q = agent_files w !! q) ∧
  (∀ path, context_paths !! a = Some path →
     agent_files w' !! path =
       (λ p, {| marker_assistant := a; marker_persona := p;
                marker_phase := shown_phase ph |}) <$> pid) ∧
  (∀ path, context_paths !! a = Some path →
     agent_files (create_agent_context_file a None ph' w').2 =
       delete path (agent_files w)).
Proof.
  unfold create_agent_context_file.
  destruct (context_paths !! a) as [path|] eqn:Hpath.
  - assert (Hk : true = bool_decide (is_Some (Some path)))
      by (symmetry; apply bool_decide_eq_true_2; by eexists).
    destruct pid as [p|]; simpl; (split; [exact Hk|]); repeat split;
      try done.
    + intros q Hq. apply lookup_insert_ne. congruence.
    + intros ? [= <-]. apply lookup_insert_eq.
    + intros ? [= <-]. apply delete_insert_eq.
    + intros q Hq. apply lookup_delete_ne. congruence.
    + intros ? [= <-]. apply lookup_delete_eq.
    + intros ? [= <-]. apply delete_delete_eq.
  - split; [symmetry; apply bool_decide_eq_false_2; by intros [? ?]|].
    simpl. repeat split; done.
Qed.

(** ** Where the recovery policy ends *)

(** X4: a current context whose [activated_at] is not an ISO timestamp
    cannot be left: deactivating, activating and switching all raise
    [ValueError]. *)
Theorem unreadable_activation_time (w : PersonaManager) (c : PersonaContext)
    (pid : string) (ph ai : option string) :
  current_context w = Some c →
  fromisoformat (activated_at c) = None →
  deactivate_persona ai w = Raise ValueError ∧
  activate_persona pid ph ai w = Raise ValueError ∧
  switch_persona pid ph ai w = Raise ValueError.
Proof.
  intros Hc Hbad.
  assert (Hd : deactivate_persona ai w = Raise ValueError).
  { unfold deactivate_persona. rewrite Hc. simpl.
    unfold parse_datetime. simpl. by rewrite Hbad. }
  split; [done|]. split.
  - unfold activate_persona. by rewrite Hc, Hd.
  - rewrite switch_persona_eq. by rewrite Hd.
Qed.

(** X5: a history file that parses to something other than a list is not
    recovered from: deactivating raises [AttributeError]. *)
Theorem history_not_a_list (w : PersonaManager) (c : PersonaContext)
    (ai : option string) (v : json) :
  current_context w = Some c →
  is_Some (fromisoformat (activated_at c)) →
  history_file w = Document v →
  (∀ l, v ≠ JList l) →
  deactivate_persona ai w = Raise AttributeError.
Proof.
  intros Hc [start Hstart] Hf Hv.
  unfold deactivate_persona. rewrite Hc. simpl.
  unfold parse_datetime. simpl. rewrite Hstart, fromisoformat_isoformat.
  simpl. unfold _load_history. simpl. rewrite Hf. simpl.
  destruct v as [| | | | |l|]; try done. by destruct (Hv l).
Qed.

(** X6: deactivating over an absent or unparsable history file starts the
    history anew: afterwards it holds the snapshot of this session and
    nothing else. *)
Theorem absent_history_restarts (w : PersonaManager) (c : PersonaContext)
    (ai : option string) :
  well_formed w = true →
  current_context w = Some c →
  history_file w = Absent ∨ (∃ text, history_file w = Unparsable text) →
  ∃ r w', deactivate_persona ai w = Ok (Some r, w') ∧
    history_file w' =
      json_dump (JList [JDict (asdict_context
        (with_deactivated_at c (isoformat (clock w (ticks w)))))]).
Proof.
  intros Hwf Hc Hf.
  apply well_formed_spec in Hwf as (Hcur & _ & (m & Hm)).
  destruct (Hcur c Hc) as [start Hstart].
  assert (Hl : _load_history w = Ok (JList [])).
  { unfold _load_history. by destruct Hf as [->|[text ->]]. }
  rewrite (deactivate_persona_active w c ai start [] m Hc Hstart Hl Hm).
  by eexists _, _.
Qed.

(** X7: one record of the performance file that cannot be built costs all
    of them. The load falls back to the empty mapping, and the next
    deactivation writes a mapping that holds the record of the persona
    just deactivated, counted from zero, and no other. *)
Theorem unbuildable_record_drops_all (w : PersonaManager)
    (c : PersonaContext) (ai : option string) (start : datetime)
    (l : list json) (data : gmap string json) (q : string) (v : json) :
  current_context w = Some c →
  fromisoformat (activated_at c) = Some start →
  _load_history w = Ok (JList l) →
  performance_file w = Document (JDict data) →
  data !! q = Some v →
  raises (kwargs_of v ≫= PersonaPerformance_init) →
  _load_performance w = Ok ∅ ∧
  ∃ r w', deactivate_persona ai w = Ok (Some r, w') ∧
    _load_performance w' =
      Ok {[ persona_id c :=
              fold_session
                (with_deactivated_at c (isoformat (clock w (ticks w))))
                (total_seconds (clock w (ticks w)) start)
                (PersonaPerformance_new (persona_id c)) ]}.
Proof.
  intros Hc Hstart Hl Hf Hq Hv.
  assert (Hm : _load_performance w = Ok ∅).
  { unfold _load_performance. rewrite Hf. simpl.
    unfold dict_comprehension. rewrite bool_decide_eq_false_2; [done|].
    intros Hall. by apply (Hall q v Hq). }
  split; [done|].
  rewrite (deactivate_persona_active w c ai start l ∅ Hc Hstart Hl Hm).
  eexists _, _. split; [reflexivity|].
  apply load_performance_document. simpl. unfold record_of.
  by rewrite lookup_empty, insert_empty.
Qed.

(** ** Activating over an active context *)

Lemma deactivate_persona_clears (w w' : PersonaManager) (ai : option string)
    (r : option (gmap string json)) :
  deactivate_persona ai w = Ok (r, w') → current_context w' = None.
Proof.
  intros Hd. destruct (current_context w) as [c|] eqn:Hc.
  - destruct (deactivate_persona_ok w w' c ai r Hc Hd)
      as (start & l & m & Hstart & Hl & Hm).
    rewrite (deactivate_persona_active w c ai start l m Hc Hstart Hl Hm) in Hd.
    by injection Hd as _ <-.
  - rewrite (deactivate_persona_idle w ai Hc) in Hd. by injection Hd as _ <-.
Qed.

(** X8: switching does to the project exactly what activating does; the
    results differ in [previous_persona] alone, whether or not the calls
    succeed. *)
Theorem switch_is_activate (pid : string) (ph ai : option string)
    (w : PersonaManager) :
  switch_persona pid ph ai w =
    (λ '(r, w'),
       (<["previous_persona" := of_opt_str (get_current_persona w)]> r, w'))
    <$> activate_persona pid ph ai w.
Proof.
  rewrite switch_persona_eq.
  destruct (current_context w) as [c|] eqn:Hc.
  - destruct (deactivate_persona ai w) as [[r w1]| |] eqn:Hd; simpl.
    + rewrite (activate_persona_after_deactivate pid ph ai w w1 c r Hc Hd
                 (deactivate_persona_clears w w1 ai r Hd)).
      by destruct (activate_persona pid ph ai w1) as [[r2 w2]| |].
    + unfold activate_persona. by rewrite Hc, Hd.
    + unfold activate_persona. by rewrite Hc, Hd.
  - rewrite (deactivate_persona_idle w ai Hc). simpl.
    by destruct (activate_persona pid ph ai w) as [[r2 w2]| |].
Qed.

(** X9: activating while a context is active folds the session that ends
    into the performance record, as an explicit deactivation would: the
    record of the previous persona counts one session more and the other
    records are as before. *)
Theorem activation_folds_previous_session (w : PersonaManager)
    (c : PersonaContext) (pid : string) (ph ai : option string)
    (m : gmap string PersonaPerformance) :
  well_formed w = true →
  current_context w = Some c →
  _load_performance w = Ok m →
  ∃ r w' m', activate_persona pid ph ai w = Ok (r, w') ∧
    _load_performance w' = Ok m' ∧
    total_sessions (record_of m' (persona_id c)) =
      total_sessions (record_of m (persona_id c)) + 1 ∧
    artifacts_created (record_of m' (persona_id c)) =
      artifacts_created (record_of m (persona_id c)) +
      Z.of_nat (length (artifacts c)) ∧
    ∀ q, q ≠ persona_id c → m' !! q = m !! q.
Proof.
  intros Hwf Hc Hm.
  apply well_formed_spec in Hwf as (Hcur & (l & Hl & Hall) & _).
  destruct (Hcur c Hc) as [start Hstart].
  pose proof (deactivate_persona_active w c ai start l m Hc Hstart Hl Hm)
    as Hd. simpl in Hd.
  rewrite (activate_persona_after_deactivate pid ph ai w _ c _ Hc Hd eq_refl).
  match type of Hd with _ = Ok (_, ?x) => set (w1 := x) in * end.
  destruct (activate_persona_idle pid ph ai w1 eq_refl)
    as (r' & w2 & Ha & _ & _ & Hp2).
  eexists r', w2, _. split; [exact Ha|].
  split; [by apply load_performance_document; rewrite Hp2|].
  assert (Hrec : record_of
            (<[persona_id c :=
                 fold_session
                   (with_deactivated_at c (isoformat (clock w (ticks w))))
                   (total_seconds (clock w (ticks w)) start)
                   (record_of m (persona_id c))]> m) (persona_id c) =
          fold_session
            (with_deactivated_at c (isoformat (clock w (ticks w))))
            (total_seconds (clock w (ticks w)) start)
            (record_of m (persona_id c))).
  { unfold record_of at 1. by rewrite lookup_insert_eq. }
  rewrite Hrec. repeat split; try done.
  intros q Hq. by rewrite lookup_insert_ne.
Qed.

(** ** More on what the sessions leave in the record *)

Lemma sessions_invariant (pid : string)
    (P : list (PersonaContext * float) → PersonaPerformance → Prop) :
  P [] (PersonaPerformance_new pid) →
  (∀ ss perf c d t, P ss perf → persona_id c = pid →
     P (ss ++ [(c, d)])%list
       (fold_session (with_deactivated_at c t) d perf)) →
  ∀ w ss w', _load_performance w = Ok ∅ → sessions pid w ss w' →
    ∃ m, _load_performance w' = Ok m ∧ P ss (record_of m pid).
Proof.
  intros Hnil Hsnoc w ss w' Hempty Hss.
  induction Hss as [w|w ss w1 w2 w3 m1 m2 c ai r d Hss IH Hm1 Hm2 Hsame Hc
                      Hpid Hd Hr].
  - exists ∅. split; [done|]. by unfold record_of.
  - destruct (IH Hempty) as (m & Hm & HP).
    rewrite Hm in Hm1. injection Hm1 as ->.
    destruct (deactivate_persona_inv w2 w3 c ai _ Hc Hd)
      as (start & l & Hstart & Hl).
    pose proof (deactivate_persona_active w2 c ai start l m2 Hc Hstart Hl Hm2)
      as Hd'.
    simpl in Hd'. rewrite Hd' in Hd. injection Hd as <- <-.
    rewrite !lookup_insert_ne, lookup_insert_eq in Hr by done.
    injection Hr as Hdeq. rewrite Hdeq in *. clear Hdeq.
    eexists. split; [by apply load_performance_document|].
    rewrite Hpid. unfold record_of at 1. rewrite lookup_insert_eq. simpl.
    replace (record_of m2 pid) with (record_of m1 pid)
      by (unfold record_of; by rewrite Hsame).
    by apply Hsnoc.
Qed.

(** X10: when the performance mapping starts empty and [ss] are the
    completed sessions of a persona, [phases_completed] of its record has
    an entry for exactly the non-empty phases some session ended in, and
    the entry counts those sessions. A session without a phase, or with the
    empty phase, is counted under no phase. *)
Theorem phase_counts (pid : string) (w w' : PersonaManager)
    (ss : list (PersonaContext * float)) :
  _load_performance w = Ok ∅ →
  sessions pid w ss w' →
  ∃ m, _load_performance w' = Ok m ∧
    ∀ ph, phases_completed (record_of m pid) !! ph =
      if bool_decide (ph ≠ "" ∧ 0 < sessions_in_phase ph ss)
      then Some (sessions_in_phase ph ss) else None.
Proof.
  intros Hempty Hss.
  pose (P := λ (ss : list (PersonaContext * float)) (perf : PersonaPerformance),
    ∀ ph, phases_completed perf !! ph =
      if bool_decide (ph ≠ "" ∧ 0 < sessions_in_phase ph ss)
      then Some (sessions_in_phase ph ss) else None).
  refine (sessions_invariant pid P _ _ w ss w' Hempty Hss); unfold P; clear P.
  - intros ph. simpl. rewrite lookup_empty.
    rewrite bool_decide_eq_false_2; [done|].
    unfold sessions_in_phase. simpl. lia.
  - intros ss0 perf c d t IH _ ph.
    assert (Hcount : sessions_in_phase ph (ss0 ++ [(c, d)])%list =
      sessions_in_phase ph ss0 +
      (if bool_decide (phase c = Some ph) then 1 else 0)).
    { unfold sessions_in_phase. rewrite filter_app, length_app.
      case_bool_decide as Hph.
      - rewrite (filter_cons_True _ (c, d)) by done. simpl. lia.
      - rewrite (filter_cons_False _ (c, d)) by done. simpl. lia. }
    assert (Hnonneg : 0 ≤ sessions_in_phase ph ss0)
      by (unfold sessions_in_phase; lia).
    rewrite Hcount. unfold fold_session. simpl.
    destruct (phase c) as [p|] eqn:Hp.
    + unfold nonempty. destruct (String.eqb_spec p "") as [->|Hne]; simpl.
      * rewrite IH. case_bool_decide as Hph.
        -- injection Hph as <-. rewrite !bool_decide_eq_false_2; [done| |];
             by intros [? ?].
        -- by rewrite Z.add_0_r.
      * destruct (decide (p = ph)) as [->|Hpne].
        -- rewrite lookup_insert_eq, IH.
           rewrite (bool_decide_eq_true_2 (Some ph = Some ph)) by done.
           rewrite (bool_decide_eq_true_2 (_ ∧ 0 < _ + 1)) by (split; [done|lia]).
           destruct (bool_decide (ph ≠ "" ∧ 0 < sessions_in_phase ph ss0))
             eqn:Hold; simpl; [done|].
           apply bool_decide_eq_false in Hold.
           f_equal. assert (sessions_in_phase ph ss0 = 0); [|lia].
           destruct (decide (0 < sessions_in_phase ph ss0)); [|lia].
           by destruct Hold.
        -- rewrite lookup_insert_ne by done. rewrite IH.
           rewrite (bool_decide_eq_false_2 (Some p = Some ph)) by congruence.
           by rewrite Z.add_0_r.
    + rewrite IH. rewrite (bool_decide_eq_false_2 (None = Some ph)) by done.
      by rewrite Z.add_0_r.
Qed.

(** ** Notes that mention an error *)

Lemma prefix_app (s post : string) : String.prefix s (s +:+ post) = true.
Proof.
  induction s as [|a s IH]; simpl; [by destruct post|].
  by destruct (Ascii.ascii_dec a a).
Qed.

Lemma contains_prefix (s hay : string) :
  String.prefix s hay = true → contains s hay = true.
Proof. intros H. destruct hay; simpl in *; by rewrite H. Qed.

Lemma contains_skip (a s hay : string) :
  contains s hay = true → contains s (a +:+ hay) = true.
Proof.
  intros H. induction a as [|x a IH]; [done|].
  change (String x a +:+ hay) with (String x (a +:+ hay)).
  simpl. rewrite IH. apply orb_true_r.
Qed.

Lemma contains_app (pre s post : string) :
  contains s (pre +:+ s +:+ post) = true.
Proof.
  induction pre as [|a pre IH].
  - change ("" +:+ s +:+ post) with (s +:+ post).
    apply contains_prefix, prefix_app.
  - change (String a pre +:+ s +:+ post) with (String a (pre +:+ s +:+ post)).
    simpl. rewrite IH. apply orb_true_r.
Qed.

Lemma lower_app (s1 s2 : string) : lower (s1 +:+ s2) = lower s1 +:+ lower s2.
Proof. induction s1 as [|a s1 IH]; simpl; [done|]. by rewrite IH. Qed.

(** X11: a note that contains the word [error], in whatever mix of upper
    and lower case and wherever in its text, marks the session: once it is
    added, folding the session adds one to [error_count]. The count goes up
    by one however many such notes the session has. *)
Theorem error_note_marks_session (w : PersonaManager) (c : PersonaContext)
    (pre word post : string) :
  current_context w = Some c →
  lower word = "error" →
  ∃ c', current_context (add_note (pre +:+ word +:+ post) w) = Some c' ∧
    has_error_note c' = true ∧
    ∀ d perf, error_count (fold_session c' d perf) = error_count perf + 1.
Proof.
  intros Hc Hword.
  assert (Hn : ∀ iso,
    contains "error"
      (lower ("[" +:+ iso +:+ "] " +:+ pre +:+ word +:+ post)) = true).
  { intros iso. rewrite !lower_app, Hword.
    do 3 apply contains_skip. apply contains_app. }
  unfold add_note. rewrite Hc. unfold datetime_now. cbv beta iota zeta.
  eexists. split; [reflexivity|].
  assert (Herr : ∀ c0 iso,
    has_error_note
      {| persona_id := persona_id c0; activated_at := activated_at c0;
         deactivated_at := deactivated_at c0; phase := phase c0;
         artifacts := artifacts c0; metrics := metrics c0;
         notes := notes c0 ++
                  ["[" +:+ iso +:+ "] " +:+ pre +:+ word +:+ post] |} = true).
  { intros c0 iso. unfold has_error_note. cbn [notes].
    rewrite existsb_app. cbn [existsb]. rewrite Hn. apply orb_true_r. }
  split; [apply Herr|].
  intros d perf. unfold fold_session. cbn [error_count].
  by rewrite Herr.
Qed.

(** ** The files a manager starts from *)

(** X12: after [_ensure_files] the three files exist; a file that existed
    before, parsable or not, is left as it was, so that running it again
    changes nothing; the current context and the markers are untouched. *)
Theorem ensure_files_keeps_existing (w : PersonaManager) :
  let w' := _ensure_files w in
  exists_ (state_file w') = true ∧ exists_ (history_file w') = true ∧
  exists_ (performance_file w') = true ∧
  (exists_ (state_file w) = true → state_file w' = state_file w) ∧
  (exists_ (history_file w) = true → history_file w' = history_file w) ∧
  (exists_ (performance_file w) = true →
     performance_file w' = performance_file w) ∧
  _ensure_files w' = w' ∧
  current_context w' = current_context w ∧ agent_files w' = agent_files w.
Proof.
  destruct w as [cur sf hf pf af clk tk].
  unfold _ensure_files. simpl.
  destruct sf, hf, pf; simpl; repeat split; done.
Qed.

(** ** The session history, newest first *)

Lemma ltb_lt (a b : string) : String.ltb a b = true ↔ String_as_OT.lt a b.
Proof.
  unfold String.ltb. rewrite <- String_as_OT.cmp_lt. unfold String_as_OT.cmp.
  destruct (String.compare a b); split; congruence.
Qed.

Lemma ltb_false_trans (a b c : string) :
  String.ltb a b = false → String.ltb b c = false → String.ltb a c = false.
Proof.
  intros Hab Hbc. destruct (String.ltb a c) eqn:Hac; [|done]. exfalso.
  apply ltb_lt in Hac.
  destruct (String.compare a b) eqn:Hcmp.
  - apply String_as_OT.cmp_eq in Hcmp. subst b.
    apply ltb_lt in Hac. congruence.
  - unfold String.ltb in Hab. by rewrite Hcmp in Hab.
  - assert (Hba : String_as_OT.lt b a).
    { apply String_as_OT.cmp_lt. unfold String_as_OT.cmp.
      pose proof (String_as_OT.cmp_antisym b a) as H.
      unfold String_as_OT.cmp in *. by rewrite H, Hcmp. }
    pose proof (String_as_OT.lt_trans _ _ _ Hba Hac) as Hlt.
    apply ltb_lt in Hlt. congruence.
Qed.

Lemma ltb_asym (a b : string) :
  String.ltb a b = true → String.ltb b a = false.
Proof.
  pose proof (String_as_OT.cmp_antisym b a) as H.
  unfold String_as_OT.cmp in H. unfold String.ltb. rewrite H.
  by destruct (String.compare a b).
Qed.

Lemma insert_desc_perm (x : string * json) (l : list (string * json)) :
  insert_desc x l ≡ₚ x :: l.
Proof.
  induction l as [|y l IH]; simpl; [done|].
  destruct (String.ltb x.1 y.1); [|done].
  rewrite IH. apply Permutation_swap.
Qed.

Lemma sort_desc_perm (l : list (string * json)) : sort_desc l ≡ₚ l.
Proof.
  induction l as [|x l IH]; simpl; [done|].
  rewrite insert_desc_perm. by rewrite IH.
Qed.

Lemma insert_desc_sorted (x : string * json) (l : list (string * json)) :
  StronglySorted keys_descend l → StronglySorted keys_descend (insert_desc x l).
Proof.
  induction 1 as [|y l Hl IH Hy]; simpl.
  - repeat constructor.
  - destruct (String.ltb x.1 y.1) eqn:Hxy.
    + constructor; [done|].
      rewrite insert_desc_perm. constructor; [|done].
      by apply ltb_asym.
    + constructor; [by constructor|].
      constructor; [done|].
      eapply Forall_impl; [exact Hy|]. intros z Hz.
      by apply (ltb_false_trans _ y.1).
Qed.

Lemma sort_desc_sorted (l : list (string * json)) :
  StronglySorted keys_descend (sort_desc l).
Proof.
  induction l as [|x l IH]; simpl; [constructor|].
  by apply insert_desc_sorted.
Qed.

Lemma sort_desc_keys (l : list (string * json)) :
  Forall (λ p, p.1 = activated_key p.2) l →
  Forall (λ p, p.1 = activated_key p.2) (sort_desc l).
Proof. intros H. by rewrite sort_desc_perm. Qed.

Lemma sorted_by_keys (ps : list (string * json)) :
  Forall (λ p, p.1 = activated_key p.2) ps →
  StronglySorted keys_descend ps →
  StronglySorted not_older (snd <$> ps).
Proof.
  intros Htag Hs. induction Hs as [|p ps Hps IH Hp]; [constructor|].
  apply Forall_cons in Htag as [Hp1 Htag]. rewrite fmap_cons.
  constructor; [by apply IH|].
  apply Forall_fmap. rewrite Forall_forall in Hp, Htag |- *.
  intros q Hq. unfold not_older. simpl.
  rewrite <- Hp1, <- (Htag q Hq). by apply Hp.
Qed.

Lemma history_keys (l : list json) :
  forallb has_activated_key l = true →
  mapM (λ x, subscript x "activated_at") l = Ok (JStr ∘ activated_key <$> l).
Proof.
  induction l as [|e l IH]; simpl; [done|].
  intros [He Hl]%andb_true_iff. rewrite (IH Hl). clear IH.
  unfold has_activated_key, activated_key in *.
  destruct e as [| | | | | |m]; try done. simpl.
  destruct (m !! "activated_at") as [[| | | |k| |]|]; done.
Qed.

Lemma mapM_as_str_compose {A} (f : A → string) (l : list A) :
  mapM as_str (JStr ∘ f <$> l) = Some (f <$> l).
Proof.
  induction l as [|x l IH]; [done|].
  rewrite !fmap_cons. simpl. rewrite IH. done.
Qed.

Lemma zip_keys (l : list json) :
  zip (activated_key <$> l) l = (λ e, (activated_key e, e)) <$> l.
Proof.
  induction l as [|e l IH]; [done|].
  rewrite !fmap_cons. simpl. f_equal. exact IH.
Qed.

Lemma get_session_history_eq (limit : Z) (w : PersonaManager)
    (l : list json) :
  _load_history w = Ok (JList l) →
  forallb has_activated_key l = true →
  get_session_history limit w =
    Ok (slice_to limit
          (snd <$> sort_desc ((λ e, (activated_key e, e)) <$> l))).
Proof.
  intros Hl Hkeys. unfold get_session_history. rewrite Hl. simpl.
  rewrite (history_keys l Hkeys). simpl.
  rewrite mapM_as_str_compose. simpl. by rewrite zip_keys.
Qed.

Lemma length_slice_to {A} (limit : Z) (l : list A) :
  0 ≤ limit → length (slice_to limit l) = (Z.to_nat limit `min` length l)%nat.
Proof.
  intros Hlim. unfold slice_to.
  destruct (0 <=? limit) eqn:H0; [apply length_take|].
  apply Z.leb_gt in H0. lia.
Qed.

(** X13: for a history whose entries carry an [activated_at] string,
    [get_session_history] returns the first [limit] entries of the history
    rearranged so that no entry is older than an entry after it; nothing is
    added or lost by the rearrangement, and for [limit >= 0] the result has
    [min limit (len history)] entries. *)
Theorem history_newest_first (limit : Z) (w : PersonaManager)
    (l : list json) :
  _load_history w = Ok (JList l) →
  forallb has_activated_key l = true →
  ∃ sorted, get_session_history limit w = Ok (slice_to limit sorted) ∧
    sorted ≡ₚ l ∧
    StronglySorted not_older sorted ∧
    (0 ≤ limit →
     length (slice_to limit sorted) = (Z.to_nat limit `min` length l)%nat).
Proof.
  intros Hl Hkeys.
  set (tagged := (λ e, (activated_key e, e)) <$> l).
  exists (snd <$> sort_desc tagged).
  split; [by apply get_session_history_eq|].
  assert (Hperm : snd <$> sort_desc tagged ≡ₚ l).
  { rewrite sort_desc_perm. unfold tagged. rewrite <- list_fmap_compose.
    by rewrite list_fmap_id. }
  split; [done|]. split.
  - apply sorted_by_keys; [|apply sort_desc_sorted].
    apply sort_desc_keys. unfold tagged. apply Forall_fmap.
    by apply Forall_true.
  - intros Hlim. rewrite length_slice_to by done. by rewrite Hperm.
Qed.

Lemma insert_desc_oldest (x : string * json) (l : list (string * json)) :
  Forall (λ y, String.ltb x.1 y.1 = true) l →
  insert_desc x l = (l ++ [x])%list.
Proof.
  induction 1 as [|y l Hy Hl IH]; simpl; [done|]. by rewrite Hy, IH.
Qed.

(** X14: a history in chronological order, each entry activated later than
    all before it, comes back reversed: [get_session_history] returns the
    [limit] most recent sessions, the newest first. *)
Theorem chronological_history_reversed (limit : Z) (w : PersonaManager)
    (l : list json) :
  _load_history w = Ok (JList l) →
  forallb has_activated_key l = true →
  StronglySorted older l →
  get_session_history limit w = Ok (slice_to limit (reverse l)).
Proof.
  intros Hl Hkeys Hchron.
  rewrite (get_session_history_eq limit w l Hl Hkeys). do 2 f_equal.
  clear Hl Hkeys. induction Hchron as [|e l Hs IH He]; [done|].
  rewrite fmap_cons. simpl. fold (sort_desc ((λ e, (activated_key e, e)) <$> l)).
  rewrite insert_desc_oldest.
  - rewrite fmap_app, IH, reverse_cons. done.
  - rewrite sort_desc_perm. apply Forall_fmap.
    eapply Forall_impl; [exact He|]. by intros e'.
Qed.

(** X15: [get_session_history] raises where the history is not what the
    manager writes: [AttributeError] when the file holds something other
    than a list, [KeyError] when the first entry that cannot be keyed is a
    dict without [activated_at], and [TypeError] when it is not a dict.
    Over an absent or unparsable file it returns the empty list. *)
Theorem history_query_errors (limit : Z) (w : PersonaManager) :
  (∀ v, history_file w = Document v → (∀ l, v ≠ JList l) →
     get_session_history limit w = Raise AttributeError) ∧
  (∀ l1 e l2, history_file w = Document (JList (l1 ++ e :: l2)%list) →
     forallb has_activated_key l1 = true →
     (∀ m, e = JDict m → m !! "activated_at" = None →
        get_session_history limit w = Raise KeyError) ∧
     ((∀ m, e ≠ JDict m) →
        get_session_history limit w = Raise TypeError)) ∧
  (history_file w = Absent ∨ (∃ text, history_file w = Unparsable text) →
     get_session_history limit w = Ok []).
Proof.
  split; [|split].
  - intros v Hf Hv. unfold get_session_history, _load_history.
    rewrite Hf. simpl. destruct v as [| | | | |l|]; try done.
    by destruct (Hv l).
  - intros l1 e l2 Hf Hkeys.
    assert (Hraise : ∀ x,
      subscript e "activated_at" = Raise x →
      get_session_history limit w = Raise x).
    { intros x Hx. unfold get_session_history, _load_history.
      rewrite Hf. simpl.
      assert (mapM (λ x, subscript x "activated_at") (l1 ++ e :: l2)%list
              = Raise x)
        as ->; [|done].
      clear Hf. induction l1 as [|a l1 IH]; simpl.
      - by rewrite Hx.
      - apply andb_true_iff in Hkeys as [Ha Hkeys].
        rewrite (IH Hkeys).
        unfold has_activated_key in Ha.
        destruct a as [| | | | | |m]; try done. simpl.
        by destruct (m !! "activated_at"). }
    split.
    + intros m -> Hm. apply Hraise. simpl. by rewrite Hm.
    + intros He. apply Hraise. destruct e as [| | | | | |m]; try done.
      by destruct (He m).
  - intros Hf. unfold get_session_history, _load_history.
    destruct Hf as [->|[text ->]]; simpl; unfold slice_to;
      destruct (0 <=? limit); by rewrite take_nil.
Qed.

(** ** VS Code settings *)

Context `{RL : PyLocale}.

Lemma recommend_dict (p : string) (m : gmap string json) :
  recommend p (JDict m) =
    match recommendations m with
    | Some recs =>
        Ok (JDict (<[recommendations_key :=
                       JDict (<["persona." +:+ p := JBool true]> recs)]> m))
    | None => Raise TypeError
    end.
Proof.
  unfold recommend, recommendations. case_bool_decide as Hin.
  - apply elem_of_dom in Hin as [v Hv]. rewrite Hv.
    by destruct v.
  - apply not_elem_of_dom in Hin. rewrite Hin, lookup_insert_eq.
    by rewrite insert_insert_eq.
Qed.

(** X16: on settings that load as a dict whose recommendations, if any,
    are a dict, [create_vscode_settings_persona] with a persona writes the
    settings with [persona.<id>] recommended, every other setting and every
    earlier recommendation kept. Calling it again with the same persona
    writes the same file, and calling it with another persona keeps the
    first one recommended. *)
Theorem settings_recommend (p p2 : string) (f : file)
    (m recs : gmap string json) :
  nonempty p = true → nonempty p2 = true →
  load_settings f = Ok (JDict m) →
  recommendations m = Some recs →
  ∃ m', create_vscode_settings_persona (Some p) f =
          Ok (true, json_dump (JDict m')) ∧
    recommendations m' = Some (<["persona." +:+ p := JBool true]> recs) ∧
    (∀ k, k ≠ recommendations_key → m' !! k = m !! k) ∧
    create_vscode_settings_persona (Some p) (json_dump (JDict m')) =
      Ok (true, json_dump (JDict m')) ∧
    ∃ m'', create_vscode_settings_persona (Some p2) (json_dump (JDict m')) =
             Ok (true, json_dump (JDict m'')) ∧
      ∃ recs'', recommendations m'' = Some recs'' ∧
        recs'' !! ("persona." +:+ p) = Some (JBool true) ∧
        recs'' !! ("persona." +:+ p2) = Some (JBool true).
Proof.
  intros Hp Hp2 Hload Hrecs.
  set (recs' := <["persona." +:+ p := JBool true]> recs).
  set (m' := <[recommendations_key := JDict recs']> m).
  assert (Hrecs' : recommendations m' = Some recs').
  { unfold recommendations, m'. by rewrite lookup_insert_eq. }
  exists m'. split.
  { unfold create_vscode_settings_persona. rewrite Hload. simpl.
    rewrite Hp, recommend_dict, Hrecs. done. }
  split; [done|]. split.
  { intros k Hk. unfold m'. by rewrite lookup_insert_ne. }
  split.
  { unfold create_vscode_settings_persona. simpl.
    rewrite Hp, recommend_dict, Hrecs'. simpl.
    unfold m', recs'. by rewrite !insert_insert_eq. }
  eexists. split.
  { unfold create_vscode_settings_persona. simpl.
    rewrite Hp2, recommend_dict, Hrecs'. simpl. reflexivity. }
  eexists. split.
  { unfold recommendations. rewrite lookup_insert_eq. reflexivity. }
  split; [|apply lookup_insert_eq].
  destruct (decide ("persona." +:+ p2 = "persona." +:+ p)) as [->|Hne].
  - apply lookup_insert_eq.
  - rewrite lookup_insert_ne by done. apply lookup_insert_eq.
Qed.

(** X17: what [create_vscode_settings_persona] does otherwise. Without a
    persona, or with the empty one, it writes back what it loaded: parsed
    settings unchanged, and an empty dict over an absent file and over a
    file whose text decodes and is not JSON. A file whose bytes do not
    decode makes it raise [UnicodeDecodeError], with or without a persona,
    and nothing is written. With a persona it raises [TypeError], and
    writes nothing, when the settings are not a dict or their
    recommendations are not one. *)
Theorem settings_edges (p : string) (f : file) :
  (∀ v, f = Document v →
     create_vscode_settings_persona None f = Ok (true, f) ∧
     create_vscode_settings_persona (Some "") f = Ok (true, f)) ∧
  (f = Absent ∨ (∃ text, f = Unparsable text ∧ decodes text = true) →
     create_vscode_settings_persona None f =
       Ok (true, json_dump (JDict ∅)) ∧
     create_vscode_settings_persona (Some "") f =
       Ok (true, json_dump (JDict ∅)) ∧
     (nonempty p = true →
        create_vscode_settings_persona (Some p) f =
          Ok (true, json_dump (JDict
            {[recommendations_key :=
                JDict {["persona." +:+ p := JBool true]}]})))) ∧
  (∀ text pid, f = Unparsable text → decodes text = false →
     create_vscode_settings_persona pid f = Raise UnicodeDecodeError) ∧
  (nonempty p = true →
     (∀ v, f = Document v → (∀ m, v ≠ JDict m) →
        create_vscode_settings_persona (Some p) f = Raise TypeError) ∧
     (∀ m, f = Document (JDict m) → recommendations m = None →
        create_vscode_settings_persona (Some p) f = Raise TypeError)).
Proof.
  assert (Hempty : ∀ q, nonempty q = true →
    recommend q (JDict ∅) =
      Ok (JDict {[recommendations_key :=
                    JDict {["persona." +:+ q := JBool true]}]})).
  { intros q _. rewrite recommend_dict. unfold recommendations.
    rewrite lookup_empty. by rewrite insert_empty. }
  split; [|split; [|split; [|intros Hp; split]]].
  - intros v ->. done.
  - intros Hf.
    assert (Hload : load_settings f = Ok (JDict ∅)).
    { destruct Hf as [->|[text [-> Hd]]]; [done|].
      unfold load_settings, json_load_text. simpl. by rewrite Hd. }
    unfold create_vscode_settings_persona. rewrite Hload. simpl.
    repeat split; try done.
    intros Hp. by rewrite Hp, (Hempty p Hp).
  - intros text pid -> Hd.
    unfold create_vscode_settings_persona, load_settings, json_load_text.
    simpl. by rewrite Hd.
  - intros v -> Hv. unfold create_vscode_settings_persona. simpl.
    rewrite Hp. destruct v as [| | | | | |m]; try done. by destruct (Hv m).
  - intros m -> Hrecs. unfold create_vscode_settings_persona. simpl.
    by rewrite Hp, recommend_dict, Hrecs.
Qed.

(** ** The command file *)

Lemma chatmode_tables :
  dom CHATMODE_CONFIG =@{gset string} dom context_paths ∧
  map_Forall (λ _ cfg,
    String.eqb (chatmode_format cfg) "toml-beast" = true ↔
    chatmode_ext cfg = ".toml") CHATMODE_CONFIG.
Proof.
  split.
  - assert (H : bool_decide
                  (dom CHATMODE_CONFIG =@{gset string} dom context_paths)
                = true) by (vm_compute; reflexivity).
    by apply bool_decide_eq_true in H.
  - assert (H : bool_decide (map_Forall (λ _ cfg,
      String.eqb (chatmode_format cfg) "toml-beast" = true ↔
      chatmode_ext cfg = ".toml") CHATMODE_CONFIG) = true)
      by (vm_compute; reflexivity).
    by apply bool_decide_eq_true in H.
Qed.

(** X18: [create_persona_command_file] answers [True] for exactly the
    assistants the notifier has a marker path for. For those it writes one
    file, [persona-switch] with the extension of the assistant in its
    chatmode directory, and leaves every other file; the text is the TOML
    one exactly when the extension is [.toml]. For the others it writes
    nothing. *)
Theorem command_file_written (ai : string) (files : gmap string command_text) :
  let '(known, files') := create_persona_command_file ai files in
  known = bool_decide (is_Some (context_paths !! ai)) ∧
  match CHATMODE_CONFIG !! ai with
  | None => files' = files
  | Some cfg =>
      let path := chatmode_dir cfg +:+ "/persona-switch" +:+ chatmode_ext cfg in
      (∀ q, q ≠ path → files' !! q = files !! q) ∧
      ∃ text, files' !! path = Some text ∧
        (text = TomlCommands ↔ chatmode_ext cfg = ".toml")
  end.
Proof.
  destruct chatmode_tables as [Hdom Hfmt].
  unfold create_persona_command_file.
  destruct (CHATMODE_CONFIG !! ai) as [cfg|] eqn:Hcfg.
  - split.
    + symmetry. apply bool_decide_eq_true_2. apply elem_of_dom.
      rewrite <- Hdom. apply elem_of_dom. by eexists.
    + split.
      * intros q Hq. rewrite lookup_insert_ne; [done|].
        intros Heq. apply Hq. rewrite <- Heq. done.
      * eexists. split; [apply lookup_insert_eq|].
        specialize (Hfmt ai cfg Hcfg). simpl in Hfmt.
        destruct (String.eqb (chatmode_format cfg) "toml-beast").
        -- split; [intros _; by apply Hfmt|done].
        -- split; [done|]. intros Hext. apply Hfmt in Hext. done.
  - split; [|done].
    symmetry. apply bool_decide_eq_false_2. rewrite <- elem_of_dom.
    rewrite <- Hdom. rewrite elem_of_dom. rewrite Hcfg. by intros [? ?].
Qed.

End Properties.

(** * Properties of the reports *)

Section ReportProperties.
Context `{RD : PyDisplay}.

Lemma length_last_n {A} (n : nat) (l : list A) :
  length (last_n n l) = (n `min` length l)%nat.
Proof. unfold last_n. rewrite length_drop. lia. Qed.

(** X19: the summary of an idle manager is the [no_active_persona] answer
    and changes nothing. The summary of an active one reads the clock once
    and changes nothing else; it shows the context's persona, phase and
    artifacts, the rounded time since activation, and the last five notes,
    or all of them when there are fewer. When [activated_at] is not an ISO
    timestamp it raises [ValueError]. *)
Theorem summary_of_context (w : PersonaManager) :
  match current_context w with
  | None =>
      get_context_summary w =
        Ok ({[ "status" := JStr "no_active_persona" ]}, w)
  | Some c =>
      match fromisoformat (activated_at c) with
      | None => get_context_summary w = Raise ValueError
      | Some start =>
          ∃ r, get_context_summary w = Ok (r, (datetime_now w).2) ∧
            r !! "status" = Some (JStr "active") ∧
            r !! "persona" = Some (JStr (persona_id c)) ∧
            r !! "phase" = Some (of_opt_str (phase c)) ∧
            r !! "artifacts" = Some (JList (JStr <$> artifacts c)) ∧
            r !! "duration_seconds" =
              Some (JFloat (round2 (total_seconds (clock w (ticks w)) start))) ∧
            ∃ shown, r !! "notes" = Some (JList (JStr <$> shown)) ∧
              shown `suffix_of` notes c ∧
              length shown = (5 `min` length (notes c))%nat
      end
  end.
Proof.
  unfold get_context_summary.
  destruct (current_context w) as [c|]; [|done].
  unfold parse_datetime.
  destruct (fromisoformat (activated_at c)) as [start|]; [|done]. simpl.
  eexists. split; [reflexivity|].
  repeat split; try reflexivity.
  exists (last_n 5 (notes c)). split; [reflexivity|]. split.
  - apply suffix_drop.
  - exact (length_last_n 5 (notes c)).
Qed.

(** X20: the performance report. With no persona, or the empty one, it has
    one formatted record for each persona of the performance mapping; with
    a persona that has no record it is the [error] answer; with one that
    has, it is that record formatted, whose counts are the stored ones
    and whose success rate is the stored one rounded. *)
Theorem report_of_performance (w : PersonaManager)
    (m : gmap string PersonaPerformance) (p : string) :
  _load_performance w = Ok m →
  get_performance_report None w = Ok (format_all m) ∧
  get_performance_report (Some "") w = Ok (format_all m) ∧
  dom (format_all m) = dom m ∧
  (nonempty p = true →
   get_performance_report (Some p) w =
     match m !! p with
     | Some perf => Ok (_format_performance perf)
     | None =>
         Ok {[ "error" := JStr ("No performance data for persona: " +:+ p) ]}
     end) ∧
  (∀ perf, m !! p = Some perf →
     _format_performance perf !! "total_sessions" =
       Some (JInt (total_sessions perf)) ∧
     _format_performance perf !! "artifacts_created" =
       Some (JInt (artifacts_created perf)) ∧
     _format_performance perf !! "error_count" =
       Some (JInt (error_count perf)) ∧
     _format_performance perf !! "success_rate" =
       Some (JFloat (round2 (success_rate perf)))).
Proof.
  intros Hm. unfold get_performance_report. rewrite Hm. simpl.
  repeat split; try done.
  - unfold format_all. apply dom_fmap_L.
  - intros Hp. rewrite Hp. by destruct (m !! p).
Qed.

End ReportProperties.

(** * The properties on the reference runtime *)

Import Reference.

Lemma deactivates_result (ai : option string) (w : PersonaManager) :
  deactivates ai w = true →
  deactivate_persona ai w = Ok (Some (result_of ai w), after_deactivate ai w).
Proof.
  unfold deactivates, result_of, after_deactivate.
  by destruct (deactivate_persona ai w) as [[[r|] w']| |].
Defined.

Lemma performance_of_loaded (w : PersonaManager) :
  bool_decide (is_ok (_load_performance w)) = true →
  _load_performance w = Ok (performance_of w).
Proof.
  unfold performance_of. intros H. apply bool_decide_eq_true in H.
  by destruct (_load_performance w).
Defined.

Lemma loads_never_raise_witness :
  (∃ m, _load_performance hand_written = Ok m ∧
     m !! "tech-lead" = Some (PersonaPerformance_new "tech-lead")) ∧
  _load_state (set_current_context None hand_written) =
    Ok (set_current_context
          (Some {| persona_id := "tech-lead";
                   activated_at := "2025-01-01T09:00:00";
                   deactivated_at := None; phase := None; artifacts := [];
                   metrics := ∅; notes := [] |}) hand_written).
Proof.
  pose proof (loads_never_raise hand_written) as Hloads.
  cbv zeta in Hloads.
  destruct Hloads as (_ & _ & _ & Hperf & _ & _ & _ & Hstate & _).
  split.
  - destruct (Hperf stored_records eq_refl) as (m & Hm & Hrecords).
    + intros pid v Hv. unfold stored_records in Hv.
      apply lookup_singleton_Some in Hv as [_ <-]. exact I.
    + exists m. split; [exact Hm|]. rewrite Hrecords.
      vm_compute. reflexivity.
  - apply (Hstate {[ "current_persona" := JDict stored_context ]}
             stored_context).
    + reflexivity.
    + reflexivity.
    + vm_compute. reflexivity.
Defined.

Lemma tech_lead_two_sessions :
  sessions "tech-lead" fresh tech_lead_sessions tech_lead_4.
Proof.
  change tech_lead_sessions
    with (([] ++ [(first_session, 300%Q)]) ++ [(second_session, 120%Q)])%list.
  apply (sessions_snoc "tech-lead" fresh _ tech_lead_2 tech_lead_3
           tech_lead_4 (performance_of tech_lead_2)
           (performance_of tech_lead_3) second_session None
           (result_of None tech_lead_3) 120%Q).
  - apply (sessions_snoc "tech-lead" fresh [] fresh tech_lead_1 tech_lead_2
             (performance_of fresh) (performance_of tech_lead_1)
             first_session None (result_of None tech_lead_1) 300%Q).
    + constructor.
    + apply performance_of_loaded. vm_compute. reflexivity.
    + apply performance_of_loaded. vm_compute. reflexivity.
    + vm_compute. reflexivity.
    + vm_compute. reflexivity.
    + reflexivity.
    + apply deactivates_result. vm_compute. reflexivity.
    + vm_compute. reflexivity.
  - apply performance_of_loaded. vm_compute. reflexivity.
  - apply performance_of_loaded. vm_compute. reflexivity.
  - vm_compute. reflexivity.
  - vm_compute. reflexivity.
  - reflexivity.
  - apply deactivates_result. vm_compute. reflexivity.
  - vm_compute. reflexivity.
Defined.

Lemma single_active_context_witness :
  well_formed fresh = true ∧
  ∃ w', run_calls [Activate "business-analyst" (Some "specify") None;
                   AddArtifact "docs/ba/requirements.md";
                   Switch "solution-architect" None (Some "copilot");
                   Activate "tech-lead" None None] fresh = Ok w' ∧
        well_formed w' = true ∧ (active_contexts w' ≤ 1)%nat.
Proof.
  assert (H : well_formed fresh = true) by (vm_compute; reflexivity).
  split; [exact H|].
  destruct (single_active_context fresh
              [Activate "business-analyst" (Some "specify") None;
               AddArtifact "docs/ba/requirements.md";
               Switch "solution-architect" None (Some "copilot");
               Activate "tech-lead" None None] H)
    as (w' & Hrun & Hwf & Hact & _).
  exists w'. split; [exact Hrun|]. split; [exact Hwf|exact Hact].
Defined.

Lemma aggregation_correct_witness :
  _load_performance fresh = Ok ∅ ∧
  sessions "tech-lead" fresh tech_lead_sessions tech_lead_4 ∧
  ∃ m, _load_performance tech_lead_4 = Ok m ∧
    total_sessions (record_of m "tech-lead") = 2 ∧
    total_duration_seconds (record_of m "tech-lead") = 420%Q ∧
    artifacts_created (record_of m "tech-lead") = 1.
Proof.
  assert (H : _load_performance fresh = Ok ∅) by (vm_compute; reflexivity).
  split; [exact H|]. split; [exact tech_lead_two_sessions|].
  exact (aggregation_correct "tech-lead" fresh tech_lead_4 tech_lead_sessions
           H tech_lead_two_sessions).
Defined.

Lemma success_rate_formula_witness :
  _load_performance fresh = Ok ∅ ∧
  sessions "tech-lead" fresh tech_lead_sessions tech_lead_4 ∧
  ∃ m, _load_performance tech_lead_4 = Ok m ∧
    total_sessions (record_of m "tech-lead") = 2 ∧
    error_count (record_of m "tech-lead") = 1 ∧
    success_rate (record_of m "tech-lead") = 50%Q.
Proof.
  assert (H : _load_performance fresh = Ok ∅) by (vm_compute; reflexivity).
  split; [exact H|]. split; [exact tech_lead_two_sessions|].
  destruct (success_rate_formula "tech-lead" fresh tech_lead_4
              tech_lead_sessions H tech_lead_two_sessions)
    as (m & Hm & Hts & Herr & Hrate & _).
  exists m. split; [exact Hm|]. split; [exact Hts|]. split; [exact Herr|].
  exact Hrate.
Defined.

Lemma deactivate_idle_witness :
  current_context fresh = None ∧
  ∃ w', deactivate_persona (Some "copilot") fresh = Ok (None, w') ∧
        history_file w' = history_file fresh ∧
        performance_file w' = performance_file fresh ∧
        w' = fresh.
Proof.
  assert (H : current_context fresh = None) by reflexivity.
  split; [exact H|]. exact (deactivate_idle fresh (Some "copilot") H).
Defined.

Lemma mutators_frame_witness :
  current_context tech_lead_1 = Some first_session ∧
  ∃ c', current_context (update_phase "review" tech_lead_1) = Some c' ∧
        phase c' = Some "review" ∧
        activated_at c' = activated_at first_session.
Proof.
  assert (H : current_context tech_lead_1 = Some first_session)
    by (vm_compute; reflexivity).
  split; [exact H|].
  destruct (mutators_frame tech_lead_1 first_session "a.md" "a note" "review" H)
    as (_ & _ & c' & Hc' & Hph & _ & Hact & _).
  exists c'. split; [exact Hc'|]. split; [exact Hph|exact Hact].
Defined.

Lemma performance_invariant_witness :
  _load_performance fresh = Ok ∅ ∧
  ∃ w' m, fold_sessions tech_lead_sessions fresh = Ok w' ∧
    _load_performance w' = Ok m ∧
    ∀ pid perf, m !! pid = Some perf →
      (0 ≤ error_count perf ≤ total_sessions perf)%Z ∧
      (0 <= success_rate perf)%Q ∧ (success_rate perf <= 100)%Q.
Proof.
  assert (H : _load_performance fresh = Ok ∅) by (vm_compute; reflexivity).
  split; [exact H|].
  destruct (performance_invariant fresh tech_lead_sessions H)
    as (w' & m & Hrun & Hm & Hall & _).
  exists w', m. split; [exact Hrun|]. split; [exact Hm|exact Hall].
Defined.

(** C2: deactivating with an assistant named does not reach the agent
    context notifier. With [business-analyst] active and its marker on
    display for [copilot], [deactivate_persona] given [copilot] returns its
    result and the marker is still there; the notifier called with no
    persona, as the specification has it, would have removed it. *)
Theorem deactivate_keeps_marker :
  agent_files analyst_active !! ".github/CURRENT_PERSONA.md" =
    Some {| marker_assistant := "copilot";
            marker_persona := "business-analyst";
            marker_phase := Some "specify" |} ∧
  ∃ r w', deactivate_persona (Some "copilot") analyst_active = Ok (Some r, w') ∧
    agent_files w' !! ".github/CURRENT_PERSONA.md" =
      Some {| marker_assistant := "copilot";
              marker_persona := "business-analyst";
              marker_phase := Some "specify" |} ∧
    agent_files (_update_agent_context "copilot" None None w')
      !! ".github/CURRENT_PERSONA.md" = None.
Proof.
  assert (Hm : agent_files analyst_active !! ".github/CURRENT_PERSONA.md" =
    Some {| marker_assistant := "copilot";
            marker_persona := "business-analyst";
            marker_phase := Some "specify" |}) by (vm_compute; reflexivity).
  split; [exact Hm|].
  assert (Hd : deactivates (Some "copilot") analyst_active = true)
    by (vm_compute; reflexivity).
  apply deactivates_result in Hd.
  eexists _, _. split; [exact Hd|].
  rewrite (deactivate_persona_agent_files _ _ _ _ Hd).
  split; [exact Hm|].
  apply update_agent_context_clears. reflexivity.
Qed.

Lemma init_recovers_context_witness :
  well_formed fresh = true ∧ persisted fresh ∧
  ∃ w' w'', run_calls [Activate "tech-lead" (Some "plan") None;
                       AddArtifact "docs/plan.md"] fresh = Ok w' ∧
    PersonaManager_init w' = Ok w'' ∧
    current_context w'' = current_context w'.
Proof.
  assert (Hwf : well_formed fresh = true) by (vm_compute; reflexivity).
  assert (Hp : persisted fresh) by (exists "0"; reflexivity).
  split; [exact Hwf|]. split; [exact Hp|].
  destruct (init_recovers_context fresh
              [Activate "tech-lead" (Some "plan") None;
               AddArtifact "docs/plan.md"] Hwf Hp)
    as (w' & w'' & Hrun & Hinit & Hcur & _).
  exists w', w''. split; [exact Hrun|]. split; [exact Hinit|exact Hcur].
Defined.

Lemma activation_notifies_witness :
  well_formed fresh = true ∧
  ∃ r w', activate_persona "business-analyst" (Some "specify")
            (Some "copilot") fresh = Ok (r, w') ∧
    agent_files w' =
      <[".github/CURRENT_PERSONA.md" :=
          {| marker_assistant := "copilot";
             marker_persona := "business-analyst";
             marker_phase := Some "specify" |}]> (agent_files fresh).
Proof.
  assert (Hwf : well_formed fresh = true) by (vm_compute; reflexivity).
  split; [exact Hwf|].
  exact (activation_notifies fresh "business-analyst" (Some "specify")
           (Some "copilot") Hwf).
Defined.

Lemma unreadable_activation_time_witness :
  deactivate_persona None unreadable = Raise ValueError ∧
  activate_persona "tech-lead" None None unreadable = Raise ValueError ∧
  switch_persona "tech-lead" None None unreadable = Raise ValueError.
Proof.
  apply (unreadable_activation_time unreadable
           {| persona_id := "tech-lead"; activated_at := "yesterday";
              deactivated_at := None; phase := None; artifacts := [];
              metrics := ∅; notes := [] |}).
  - reflexivity.
  - vm_compute. reflexivity.
Defined.

Lemma history_not_a_list_witness :
  deactivate_persona None history_is_dict = Raise AttributeError.
Proof.
  apply (history_not_a_list history_is_dict first_session None (JDict ∅)).
  - vm_compute. reflexivity.
  - exists 60000000. vm_compute. reflexivity.
  - reflexivity.
  - intros l. discriminate.
Defined.

Lemma absent_history_restarts_witness :
  ∃ r w', deactivate_persona None history_absent = Ok (Some r, w') ∧
    history_file w' =
      json_dump (JList [JDict (asdict_context
        (with_deactivated_at first_session
           (isoformat (clock history_absent (ticks history_absent)))))]).
Proof.
  apply (absent_history_restarts history_absent first_session None).
  - vm_compute. reflexivity.
  - vm_compute. reflexivity.
  - left. reflexivity.
Defined.

Lemma unbuildable_record_drops_all_witness :
  _load_performance performance_damaged = Ok ∅ ∧
  ∃ r w', deactivate_persona None performance_damaged = Ok (Some r, w') ∧
    _load_performance w' =
      Ok {[ "tech-lead" :=
              fold_session
                (with_deactivated_at first_session
                   (isoformat (clock performance_damaged
                                 (ticks performance_damaged))))
                (total_seconds
                   (clock performance_damaged (ticks performance_damaged))
                   60000000)
                (PersonaPerformance_new "tech-lead") ]}.
Proof.
  apply (unbuildable_record_drops_all performance_damaged first_session None
           60000000 [] damaged_records "ghost" JNull).
  - vm_compute. reflexivity.
  - vm_compute. reflexivity.
  - vm_compute. reflexivity.
  - reflexivity.
  - apply lookup_insert_eq.
  - exact I.
Defined.

Lemma activation_folds_previous_session_witness :
  ∃ r w' m', activate_persona "solution-architect" None None tech_lead_1
               = Ok (r, w') ∧
    _load_performance w' = Ok m' ∧
    total_sessions (record_of m' "tech-lead") =
      total_sessions (record_of (performance_of tech_lead_1) "tech-lead") + 1.
Proof.
  destruct (activation_folds_previous_session tech_lead_1 first_session
              "solution-architect" None None (performance_of tech_lead_1))
    as (r & w' & m' & Ha & Hm' & Hts & _).
  - vm_compute. reflexivity.
  - vm_compute. reflexivity.
  - apply performance_of_loaded. vm_compute. reflexivity.
  - exists r, w', m'. split; [exact Ha|]. split; [exact Hm'|exact Hts].
Defined.

Lemma phase_counts_witness :
  ∃ m, _load_performance tech_lead_4 = Ok m ∧
    phases_completed (record_of m "tech-lead") !! "implement" = Some 1 ∧
    phases_completed (record_of m "tech-lead") !! "plan" = None.
Proof.
  assert (H : _load_performance fresh = Ok ∅) by (vm_compute; reflexivity).
  destruct (phase_counts "tech-lead" fresh tech_lead_4 tech_lead_sessions H
              tech_lead_two_sessions) as (m & Hm & Hph).
  exists m. split; [exact Hm|]. split.
  - exact (Hph "implement").
  - exact (Hph "plan").
Defined.

Lemma error_note_marks_session_witness :
  ∃ c', current_context (add_note "no ERRORs found" fresh_active) = Some c' ∧
    has_error_note c' = true.
Proof.
  destruct (error_note_marks_session fresh_active second_session
              "no " "ERROR" "s found") as (c' & Hc' & Herr & _).
  - vm_compute. reflexivity.
  - vm_compute. reflexivity.
  - exists c'. split; [exact Hc'|exact Herr].
Defined.

Lemma history_newest_first_witness :
  ∃ sorted, get_session_history 1 with_history = Ok (slice_to 1 sorted) ∧
    sorted ≡ₚ two_entries ∧ StronglySorted not_older sorted.
Proof.
  destruct (history_newest_first 1 with_history two_entries)
    as (sorted & Hget & Hperm & Hsorted & _).
  - reflexivity.
  - vm_compute. reflexivity.
  - exists sorted. split; [exact Hget|]. split; [exact Hperm|exact Hsorted].
Defined.

Lemma chronological_history_reversed_witness :
  get_session_history 1 with_history =
    Ok [snapshot "2025-01-02T09:00:00"].
Proof.
  apply (chronological_history_reversed 1 with_history two_entries).
  - reflexivity.
  - vm_compute. reflexivity.
  - repeat constructor; vm_compute; reflexivity.
Defined.

Lemma settings_recommend_witness :
  ∃ m', create_vscode_settings_persona (Some "business-analyst") Absent =
          Ok (true, json_dump (JDict m')) ∧
    recommendations m' = Some (<["persona.business-analyst" := JBool true]> ∅).
Proof.
  destruct (settings_recommend "business-analyst" "tech-lead" Absent ∅ ∅)
    as (m' & Hcreate & Hrecs & _).
  - reflexivity.
  - reflexivity.
  - reflexivity.
  - reflexivity.
  - exists m'. split; [exact Hcreate|exact Hrecs].
Defined.

Lemma settings_edges_witness :
  create_vscode_settings_persona None half_written =
    Ok (true, json_dump (JDict ∅)) ∧
  create_vscode_settings_persona (Some "tech-lead") undecodable =
    Raise UnicodeDecodeError.
Proof.
  split.
  - destruct (settings_edges "tech-lead" half_written)
      as (_ & Hrecovered & _).
    apply Hrecovered. right. exists "{". split; reflexivity.
  - destruct (settings_edges "tech-lead" undecodable)
      as (_ & _ & Hescapes & _).
    apply (Hescapes (String (Ascii.ascii_of_N 255) EmptyString));
      reflexivity.
Defined.

Lemma report_of_performance_witness :
  get_performance_report None tech_lead_4 =
    Ok (format_all (performance_of tech_lead_4)) ∧
  dom (format_all (performance_of tech_lead_4))
    = dom (performance_of tech_lead_4).
Proof.
  destruct (report_of_performance tech_lead_4 (performance_of tech_lead_4)
              "tech-lead") as (Hall & _ & Hdom & _).
  - apply performance_of_loaded. vm_compute. reflexivity.
  - split; [exact Hall|exact Hdom].
Defined.
